(** * Eligibility guards and catalog services of the event back end

    A shallow embedding of the hotel service, the hotel repository and the
    activities service.  The services are asynchronous functions that await
    repository calls one after the other and throw application errors; they
    are embedded as programs over the repository calls, and a handler runs a
    program against the entity store, recording which calls were issued. *)

From Stdlib Require Import ZArith List Bool String Lia.
Import ListNotations.

Local Open Scope Z_scope.

(** ** Data model *)

(** Timestamps are epoch milliseconds, numeric keys are JS numbers holding
    integers. *)
Definition DateTime : Type := Z.

Inductive TicketStatus : Type := RESERVED | PAID.

Definition TicketStatus_eqb (a b : TicketStatus) : bool :=
  match a, b with
  | RESERVED, RESERVED | PAID, PAID => true
  | _, _ => false
  end.

Module Enrollment.
Record t : Type := mk { id : Z; userId : Z; name : string }.
End Enrollment.

Module TicketType.
Record t : Type := mk { id : Z; price : Z; isRemote : bool; includesHotel : bool }.
End TicketType.

(** A ticket as [findTicketByEnrollmentId] hands it to the services: the row
    together with its [TicketType] relation. *)
Module Ticket.
Record t : Type := mk {
  id : Z;
  enrollmentId : Z;
  status : TicketStatus;
  TicketType : TicketType.t
}.
End Ticket.

Module Booking.
Record t : Type := mk { id : Z; userId : Z; roomId : Z }.
End Booking.

Module Hotel.
Record t : Type := mk { id : Z; name : string }.
End Hotel.

Module Room.
Record t : Type := mk { id : Z; name : string; capacity : Z; hotelId : Z }.
End Room.

(** [include: { Rooms: true }] *)
Module HotelWithRooms.
Record t : Type := mk { id : Z; name : string; Rooms : list Room.t }.
End HotelWithRooms.

(** [include: { Rooms: { include: { Booking: true } } }] *)
Module RoomWithBooking.
Record t : Type := mk {
  id : Z; name : string; capacity : Z; hotelId : Z;
  Booking : list Booking.t
}.
End RoomWithBooking.

Module HotelWithRoomsAndBooking.
Record t : Type := mk { id : Z; name : string; Rooms : list RoomWithBooking.t }.
End HotelWithRoomsAndBooking.

Module Activities.
Record t : Type := mk {
  id : Z;
  day : string;
  startsAt : string;
  endsAt : string;
  placeId : Z;
  createdAt : DateTime;
  updatedAt : DateTime
}.
End Activities.

Module UserActivities.
Record t : Type := mk {
  id : Z;
  userId : Z;
  activityId : Z;
  createdAt : DateTime;
  updatedAt : DateTime
}.
End UserActivities.

(** The object literal [{...activity, userSubscribed: b}]: every property of
    the activity, and the flag. *)
Module ActivityWithUser.
Record t : Type := mk {
  id : Z;
  day : string;
  startsAt : string;
  endsAt : string;
  placeId : Z;
  createdAt : DateTime;
  updatedAt : DateTime;
  userSubscribed : bool
}.

Definition spread (activity : Activities.t) (flag : bool) : t :=
  {| id := Activities.id activity;
     day := Activities.day activity;
     startsAt := Activities.startsAt activity;
     endsAt := Activities.endsAt activity;
     placeId := Activities.placeId activity;
     createdAt := Activities.createdAt activity;
     updatedAt := Activities.updatedAt activity;
     userSubscribed := flag |}.

(** The properties the element shares with a catalog activity. *)
Definition activity (a : t) : Activities.t :=
  {| Activities.id := id a;
     Activities.day := day a;
     Activities.startsAt := startsAt a;
     Activities.endsAt := endsAt a;
     Activities.placeId := placeId a;
     Activities.createdAt := createdAt a;
     Activities.updatedAt := updatedAt a |}.
End ActivityWithUser.

(** ** Errors *)

(** The errors the services throw or let through.  The last one is the
    ORM's own, for a number that does not fit the column it is compared
    with. *)
Inductive ApplicationError : Type :=
| notFoundError
| cannotListHotelsError
| cannotListActivities
| conflictError
| badRequestError
| prismaRangeError.

Inductive ErrorKind : Type := NotFound | Forbidden | Conflict | Validation | StoreFailure.

(** Modelled from the spec: the error constructors of the errors module are
    not part of the sources at hand; the kind of each error follows the
    taxonomy of the error handling design.  A failed store call is none of
    the four kinds of that taxonomy; it reaches the caller as it is. *)
Definition kind (e : ApplicationError) : ErrorKind :=
  match e with
  | notFoundError => NotFound
  | cannotListHotelsError => Forbidden
  | cannotListActivities => Forbidden
  | conflictError => Conflict
  | badRequestError => Validation
  | prismaRangeError => StoreFailure
  end.

(** Modelled from the spec: the message of the two eligibility errors, the
    only ones whose message the spec gives. *)
Definition message (e : ApplicationError) : option string :=
  match e with
  | cannotListHotelsError => Some "cannot list hotels"%string
  | cannotListActivities => Some "cannot list activities"%string
  | _ => None
  end.

(** How an awaited promise settles. *)
Inductive Result (A : Type) : Type :=
| Ok (a : A)
| Err (e : ApplicationError).
Arguments Ok {A} a.
Arguments Err {A} e.

(** ** Programs over the store *)

(** The calls that reach the store: the functions of the enrollment, ticket,
    booking and activities repositories, and the three queries the hotel
    repository sends to the ORM. *)
Inductive Query : Type :=
| QFindWithAddressByUserId (userId : Z)
| QFindTicketByEnrollmentId (enrollmentId : Z)
| QFindByUserId (userId : Z)
| QHotelFindMany
| QHotelFindFirstRooms (hotelId : Z)
| QHotelFindManyRoomsBooking
| QFindAllActivities
| QFindUserActivities (userId : Z)
| QRegisterInActivity (userId activityId : Z).

Definition Answer (q : Query) : Type :=
  match q with
  | QFindWithAddressByUserId _ => option Enrollment.t
  | QFindTicketByEnrollmentId _ => option Ticket.t
  | QFindByUserId _ => option Booking.t
  | QHotelFindMany => list Hotel.t
  | QHotelFindFirstRooms _ => option HotelWithRooms.t
  | QHotelFindManyRoomsBooking => list HotelWithRoomsAndBooking.t
  | QFindAllActivities => list Activities.t
  | QFindUserActivities _ => list UserActivities.t
  | QRegisterInActivity _ _ => UserActivities.t
  end.

(** An async function body: it returns, throws, or awaits a call and goes on
    with the answer. *)
Inductive Prog (A : Type) : Type :=
| Ret (a : A)
| Throw (e : ApplicationError)
| Call (q : Query) (k : Answer q -> Prog A).
Arguments Ret {A} a.
Arguments Throw {A} e.
Arguments Call {A} q k.

Fixpoint bind {A B : Type} (m : Prog A) (f : A -> Prog B) : Prog B :=
  match m with
  | Ret a => f a
  | Throw e => Throw e
  | Call q k => Call q (fun r => bind (k r) f)
  end.

Definition await (q : Query) : Prog (Answer q) := Call q Ret.

Declare Scope prog_scope.
Delimit Scope prog_scope with prog.
Notation "x <- m ;; k" := (bind m (fun x => k))
  (at level 100, m at next level, right associativity) : prog_scope.
Notation "m ;;; k" := (bind m (fun _ => k))
  (at level 100, right associativity) : prog_scope.
Local Open Scope prog_scope.

(** ** The entity store *)

(** An insert that breaks two constraints at once is rejected for one of
    them: the one the store checks first. *)
Inductive InsertCheck : Type := ReferenceFirst | UniquenessFirst.

Record Store : Type := mkStore {
  enrollment : list Enrollment.t;
  ticket : list Ticket.t;
  booking : list Booking.t;
  hotel : list Hotel.t;
  room : list Room.t;
  activities : list Activities.t;
  userActivities : list UserActivities.t;
  now : DateTime;
  insertCheck : InsertCheck
}.

Definition setUserActivities (s : Store) (rows : list UserActivities.t) : Store :=
  {| enrollment := enrollment s;
     ticket := ticket s;
     booking := booking s;
     hotel := hotel s;
     room := room s;
     activities := activities s;
     userActivities := rows;
     now := now s;
     insertCheck := insertCheck s |}.

(** *** Hotel queries, as the hotel repository writes them *)

(** [prisma.hotel.findMany()] *)
Definition hotel_findMany (s : Store) : list Hotel.t := hotel s.

(** The [Rooms] relation of a hotel. *)
Definition roomsOf (s : Store) (hotelId : Z) : list Room.t :=
  filter (fun r => Room.hotelId r =? hotelId) (room s).

(** The ORM's [Int], the type of the numeric keys: a signed 32-bit
    integer. *)
Definition fitsInt (n : Z) : bool :=
  (-2147483648 <=? n) && (n <=? 2147483647).

(** [prisma.hotel.findFirst({ where: { id: hotelId }, include: { Rooms: true } })].
    A filter value that does not fit the key column makes the query itself
    fail: the promise is rejected with the ORM's error and no row is looked
    at.  Otherwise the answer is the first hotel with that id, or null. *)
Definition hotel_findFirst_Rooms (s : Store) (hotelId : Z)
  : Result (option HotelWithRooms.t) :=
  if fitsInt hotelId then
    Ok (match find (fun h => Hotel.id h =? hotelId) (hotel s) with
        | Some h =>
            Some {| HotelWithRooms.id := Hotel.id h;
                    HotelWithRooms.name := Hotel.name h;
                    HotelWithRooms.Rooms := roomsOf s (Hotel.id h) |}
        | None => None
        end)
  else Err prismaRangeError.

(** The [Booking] relation of a room. *)
Definition bookingsOf (s : Store) (roomId : Z) : list Booking.t :=
  filter (fun b => Booking.roomId b =? roomId) (booking s).

Definition withBooking (s : Store) (r : Room.t) : RoomWithBooking.t :=
  {| RoomWithBooking.id := Room.id r;
     RoomWithBooking.name := Room.name r;
     RoomWithBooking.capacity := Room.capacity r;
     RoomWithBooking.hotelId := Room.hotelId r;
     RoomWithBooking.Booking := bookingsOf s (Room.id r) |}.

(** [prisma.hotel.findMany({ include: { Rooms: { include: { Booking: true } } } })] *)
Definition hotel_findMany_Rooms_Booking (s : Store) : list HotelWithRoomsAndBooking.t :=
  map (fun h =>
         {| HotelWithRoomsAndBooking.id := Hotel.id h;
            HotelWithRoomsAndBooking.name := Hotel.name h;
            HotelWithRoomsAndBooking.Rooms :=
              map (withBooking s) (roomsOf s (Hotel.id h)) |})
      (hotel s).

(** *** Repositories whose code is not at hand *)

(** Modelled from the spec: the enrollment repository is missing;
    [findEnrollmentWithAddressByUser(userId) -> Enrollment | absent]. *)
Definition enrollment_findWithAddressByUserId (s : Store) (userId : Z)
  : option Enrollment.t :=
  find (fun e => Enrollment.userId e =? userId) (enrollment s).

(** Modelled from the spec: the ticket repository is missing;
    [findTicketByEnrollment(enrollmentId) -> Ticket(with embedded TicketType) | absent],
    the single ticket of that enrollment. *)
Definition ticket_findTicketByEnrollmentId (s : Store) (enrollmentId : Z)
  : option Ticket.t :=
  find (fun t => Ticket.enrollmentId t =? enrollmentId) (ticket s).

(** Modelled from the spec: the booking repository is missing;
    [findBookingByUser(userId) -> Booking | absent]. *)
Definition booking_findByUserId (s : Store) (userId : Z) : option Booking.t :=
  find (fun b => Booking.userId b =? userId) (booking s).

(** Modelled from the spec: the activities repository is missing;
    [findAllActivities() -> sequence<Activity>], the full catalog in the
    store's order. *)
Definition activities_findAllActivities (s : Store) : list Activities.t :=
  activities s.

(** Modelled from the spec: the activities repository is missing;
    [findUserActivityRegistrations(userId)], the registrations belonging to
    [userId]. *)
Definition activities_findUserActivities (s : Store) (userId : Z)
  : list UserActivities.t :=
  filter (fun r => UserActivities.userId r =? userId) (userActivities s).

Definition activityExists (s : Store) (activityId : Z) : bool :=
  existsb (fun a => Activities.id a =? activityId) (activities s).

Definition userRegistered (s : Store) (userId : Z) : bool :=
  existsb (fun r => UserActivities.userId r =? userId) (userActivities s).

(** The next value of the serial key of the registrations table. *)
Definition nextUserActivitiesId (s : Store) : Z :=
  1 + fold_right Z.max 0 (map UserActivities.id (userActivities s)).

(** Modelled from the spec: the activities repository is missing; the row
    [insertActivityRegistration(userId, activityId)] writes, with a
    server-assigned id and timestamps. *)
Definition insertUserActivity (s : Store) (userId activityId : Z)
  : Result UserActivities.t * Store :=
  let row := {| UserActivities.id := nextUserActivitiesId s;
                UserActivities.userId := userId;
                UserActivities.activityId := activityId;
                UserActivities.createdAt := now s;
                UserActivities.updatedAt := now s |} in
  (Ok row, setUserActivities s (userActivities s ++ [row])).

(** Modelled from the spec: the activities repository is missing;
    [insertActivityRegistration(userId, activityId)] fails with BadRequest
    when [activityId] references no activity and with Conflict when a
    registration of [userId] exists (uniqueness on [userId] alone); in
    either case nothing is written.  The spec gives the two failures
    without saying which one a call that meets both conditions ends with:
    that is left to the store, so that whatever is proved of a
    registration holds for either order. *)
Definition activities_registerInActivity (s : Store) (userId activityId : Z)
  : Result UserActivities.t * Store :=
  match insertCheck s with
  | ReferenceFirst =>
      if negb (activityExists s activityId) then (Err badRequestError, s)
      else if userRegistered s userId then (Err conflictError, s)
      else insertUserActivity s userId activityId
  | UniquenessFirst =>
      if userRegistered s userId then (Err conflictError, s)
      else if negb (activityExists s activityId) then (Err badRequestError, s)
      else insertUserActivity s userId activityId
  end.

(** *** Running a program *)

Definition handle (q : Query) (s : Store) : Result (Answer q) * Store :=
  match q return Result (Answer q) * Store with
  | QFindWithAddressByUserId userId =>
      (Ok (enrollment_findWithAddressByUserId s userId), s)
  | QFindTicketByEnrollmentId enrollmentId =>
      (Ok (ticket_findTicketByEnrollmentId s enrollmentId), s)
  | QFindByUserId userId => (Ok (booking_findByUserId s userId), s)
  | QHotelFindMany => (Ok (hotel_findMany s), s)
  | QHotelFindFirstRooms hotelId => (hotel_findFirst_Rooms s hotelId, s)
  | QHotelFindManyRoomsBooking => (Ok (hotel_findMany_Rooms_Booking s), s)
  | QFindAllActivities => (Ok (activities_findAllActivities s), s)
  | QFindUserActivities userId => (Ok (activities_findUserActivities s userId), s)
  | QRegisterInActivity userId activityId =>
      activities_registerInActivity s userId activityId
  end.

(** What a call of a service leaves behind: how its promise settled, the
    store afterwards, and the calls that reached the store, in order. *)
Record Outcome (A : Type) : Type := mkOutcome {
  result : Result A;
  store : Store;
  trace : list Query
}.
Arguments mkOutcome {A} result store trace.
Arguments result {A} o.
Arguments store {A} o.
Arguments trace {A} o.

Fixpoint run {A : Type} (m : Prog A) (s : Store) : Outcome A :=
  match m with
  | Ret a => mkOutcome (Ok a) s []
  | Throw e => mkOutcome (Err e) s []
  | Call q k =>
      match handle q s with
      | (Ok r, s') =>
          let o := run (k r) s' in
          mkOutcome (result o) (store o) (q :: trace o)
      | (Err e, s') => mkOutcome (Err e) s' [q]
      end
  end.

(** ** The hotel repository *)

Definition findHotels : Prog (list Hotel.t) := await QHotelFindMany.

Definition findRoomsByHotelId (hotelId : Z) : Prog (option HotelWithRooms.t) :=
  await (QHotelFindFirstRooms hotelId).

Definition findAllHotelsWithRooms : Prog (list HotelWithRoomsAndBooking.t) :=
  await QHotelFindManyRoomsBooking.

(** ** The hotel service *)

Definition listHotels (userId : Z) : Prog unit :=
  enrollment <- await (QFindWithAddressByUserId userId) ;;
  match enrollment with
  | None => Throw notFoundError
  | Some enrollment =>
      ticket <- await (QFindTicketByEnrollmentId (Enrollment.id enrollment)) ;;
      match ticket with
      | None => Throw cannotListHotelsError
      | Some ticket =>
          if TicketStatus_eqb (Ticket.status ticket) RESERVED
             || TicketType.isRemote (Ticket.TicketType ticket)
             || negb (TicketType.includesHotel (Ticket.TicketType ticket))
          then Throw cannotListHotelsError
          else Ret tt
      end
  end.

Definition getHotels (userId : Z) : Prog (list Hotel.t) :=
  listHotels userId ;;;
  hotels <- findHotels ;;
  Ret hotels.

Definition getHotelsWithRooms (userId hotelId : Z) : Prog HotelWithRooms.t :=
  listHotels userId ;;;
  hotel <- findRoomsByHotelId hotelId ;;
  match hotel with
  | None => Throw notFoundError
  | Some hotel => Ret hotel
  end.

Definition getAllHotelsWithRooms (userId : Z) : Prog (list HotelWithRoomsAndBooking.t) :=
  listHotels userId ;;;
  hotels <- findAllHotelsWithRooms ;;
  Ret hotels.

(** ** The activities service *)

Definition listActivities (userId : Z) : Prog unit :=
  enrollment <- await (QFindWithAddressByUserId userId) ;;
  match enrollment with
  | None => Throw notFoundError
  | Some enrollment =>
      ticket <- await (QFindTicketByEnrollmentId (Enrollment.id enrollment)) ;;
      match ticket with
      | None => Throw cannotListActivities
      | Some ticket =>
          if TicketStatus_eqb (Ticket.status ticket) RESERVED
             || TicketType.isRemote (Ticket.TicketType ticket)
          then Throw cannotListActivities
          else
            booking <- await (QFindByUserId userId) ;;
            match booking with
            | None => Throw notFoundError
            | Some _ => Ret tt
            end
      end
  end.

(** The callback given to [activities.map]: the loop over the user's
    registrations returns at the first one that names the activity. *)
Fixpoint activitiesWithUser_callback
  (activity : Activities.t) (userActivities : list UserActivities.t)
  : ActivityWithUser.t :=
  match userActivities with
  | [] => ActivityWithUser.spread activity false
  | userActivity :: rest =>
      if Activities.id activity =? UserActivities.activityId userActivity
      then ActivityWithUser.spread activity true
      else activitiesWithUser_callback activity rest
  end.

Definition getActivities (userId : Z) : Prog (list ActivityWithUser.t) :=
  listActivities userId ;;;
  activities <- await QFindAllActivities ;;
  userActivities <- await (QFindUserActivities userId) ;;
  let activitiesWithUser :=
    map (fun activity => activitiesWithUser_callback activity userActivities) activities in
  Ret activitiesWithUser.

Definition createUserActivity (userId activityId : Z) : Prog UserActivities.t :=
  listActivities userId ;;;
  await (QRegisterInActivity userId activityId).

(** ** Stating the properties *)

(** The hotel guard's refusal as the design states it: the ticket is absent,
    or reserved, or remote, or without hotel. *)
Definition hotelTicketRefused (ticket : option Ticket.t) : Prop :=
  ticket = None
  \/ exists t, ticket = Some t
       /\ (Ticket.status t = RESERVED
           \/ TicketType.isRemote (Ticket.TicketType t) = true
           \/ TicketType.includesHotel (Ticket.TicketType t) = false).

(** Some registration of [userId] in the store names the activity. *)
Definition subscribedTo (s : Store) (userId activityId : Z) : Prop :=
  exists r, In r (userActivities s)
            /\ UserActivities.userId r = userId
            /\ UserActivities.activityId r = activityId.

Definition passesActivityGuard (s : Store) (userId : Z) : Prop :=
  result (run (listActivities userId) s) = Ok tt.

Definition passesHotelGuard (s : Store) (userId : Z) : Prop :=
  result (run (listHotels userId) s) = Ok tt.

(** ** A small store to run the services on *)

Module Sample.
Definition inPerson : TicketType.t := TicketType.mk 1 600 false true.
Definition inPersonNoHotel : TicketType.t := TicketType.mk 2 250 false false.
Definition online : TicketType.t := TicketType.mk 3 100 true false.

Definition enrollment1 : Enrollment.t := Enrollment.mk 11 1 "Ana".
Definition enrollment2 : Enrollment.t := Enrollment.mk 12 2 "Bia".
Definition enrollment3 : Enrollment.t := Enrollment.mk 13 3 "Caio".
Definition enrollment4 : Enrollment.t := Enrollment.mk 14 4 "Davi".
Definition enrollment5 : Enrollment.t := Enrollment.mk 15 5 "Eva".

Definition lecture : Activities.t :=
  Activities.mk 10 "Sexta" "09:00" "10:00" 1 1000 1000.
Definition workshop : Activities.t :=
  Activities.mk 20 "Sexta" "10:00" "12:00" 2 1000 1000.
Definition hackathon : Activities.t :=
  Activities.mk 30 "Sabado" "09:00" "12:00" 1 1000 1000.

(** User 1 holds a paid in-person ticket with hotel and a booking, user 2
    a paid in-person ticket without hotel and a booking, user 3 a reserved
    ticket, user 4 no ticket, user 5 a paid ticket but no booking, and
    user 6 has no enrollment.  The store checks the uniqueness of a
    registration before its reference. *)
Definition fresh : Store :=
  {| enrollment := [enrollment1; enrollment2; enrollment3; enrollment4; enrollment5];
     ticket := [Ticket.mk 21 11 PAID inPerson;
                Ticket.mk 22 12 PAID inPersonNoHotel;
                Ticket.mk 23 13 RESERVED inPerson;
                Ticket.mk 25 15 PAID inPerson];
     booking := [Booking.mk 1 1 101; Booking.mk 2 2 102];
     hotel := [Hotel.mk 1 "Palace"; Hotel.mk 2 "Resort"];
     room := [Room.mk 101 "101" 2 1; Room.mk 201 "201" 1 2; Room.mk 102 "102" 3 1];
     activities := [lecture; workshop; hackathon];
     userActivities := [];
     now := 5000;
     insertCheck := UniquenessFirst |}.

(** The same store once user 1 holds one registration and user 2
    several. *)
Definition registered : Store :=
  setUserActivities fresh
    [UserActivities.mk 1 1 20 2000 2000;
     UserActivities.mk 2 2 30 3000 3000;
     UserActivities.mk 3 2 10 4000 4000].
End Sample.

(** ** Further notions used to state properties *)

(** The activity guard's refusal of a ticket: absent, reserved or remote. *)
Definition activityTicketRefused (ticket : option Ticket.t) : Prop :=
  ticket = None
  \/ exists t, ticket = Some t
       /\ (Ticket.status t = RESERVED
           \/ TicketType.isRemote (Ticket.TicketType t) = true).

(** The store holds a booking of the user. *)
Definition hasBooking (s : Store) (userId : Z) : Prop :=
  exists b, In b (booking s) /\ Booking.userId b = userId.

(** The lookups the two guards make. *)
Definition isGuardLookup (q : Query) : bool :=
  match q with
  | QFindWithAddressByUserId _ | QFindTicketByEnrollmentId _ | QFindByUserId _ => true
  | _ => false
  end.

(** A room of the nested listing without its bookings, and a hotel of
    either listing without its rooms. *)
Definition forgetBooking (r : RoomWithBooking.t) : Room.t :=
  {| Room.id := RoomWithBooking.id r;
     Room.name := RoomWithBooking.name r;
     Room.capacity := RoomWithBooking.capacity r;
     Room.hotelId := RoomWithBooking.hotelId r |}.

Definition forgetRooms (h : HotelWithRooms.t) : Hotel.t :=
  {| Hotel.id := HotelWithRooms.id h; Hotel.name := HotelWithRooms.name h |}.

Definition forgetRoomsAndBooking (h : HotelWithRoomsAndBooking.t) : Hotel.t :=
  {| Hotel.id := HotelWithRoomsAndBooking.id h;
     Hotel.name := HotelWithRoomsAndBooking.name h |}.

(** No two registrations of the store belong to the same user. *)
Definition oneRegistrationPerUser (s : Store) : Prop :=
  NoDup (map UserActivities.userId (userActivities s)).

(** ** Running sequenced programs *)

Lemma run_bind {A B : Type} (m : Prog A) (f : A -> Prog B) (s : Store) :
  run (bind m f) s =
  match result (run m s) with
  | Ok a =>
      let o := run (f a) (store (run m s)) in
      mkOutcome (result o) (store o) (trace (run m s) ++ trace o)
  | Err e => mkOutcome (Err e) (store (run m s)) (trace (run m s))
  end.
Proof.
  revert s; induction m as [a | e | q k IH]; intros s; simpl.
  - destruct (run (f a) s); reflexivity.
  - reflexivity.
  - destruct (handle q s) as [[r | e] s']; simpl.
    + rewrite IH. destruct (result (run (k r) s')); reflexivity.
    + reflexivity.
Qed.

Lemma run_await (q : Query) (s : Store) :
  run (await q) s =
  match handle q s with
  | (Ok r, s') => mkOutcome (Ok r) s' [q]
  | (Err e, s') => mkOutcome (Err e) s' [q]
  end.
Proof. unfold await; simpl. destruct (handle q s) as [[r | e] s']; reflexivity. Qed.

Lemma find_none_iff {A : Type} (p : A -> bool) (l : list A) :
  find p l = None <-> forall x, In x l -> p x = false.
Proof.
  split.
  - intros H x Hx. exact (find_none p l H x Hx).
  - induction l as [| a l IH]; intros H; simpl; [reflexivity |].
    rewrite (H a (or_introl eq_refl)). apply IH.
    intros x Hx. apply H. right; exact Hx.
Qed.

(** ** The two guards, case by case *)

Section Guards.
Variable s : Store.
Variable userId : Z.

Lemma listHotels_no_enrollment :
  enrollment_findWithAddressByUserId s userId = None ->
  run (listHotels userId) s =
  mkOutcome (Err notFoundError) s [QFindWithAddressByUserId userId].
Proof. intros H. unfold listHotels; simpl. rewrite H. reflexivity. Qed.

Lemma listActivities_no_enrollment :
  enrollment_findWithAddressByUserId s userId = None ->
  run (listActivities userId) s =
  mkOutcome (Err notFoundError) s [QFindWithAddressByUserId userId].
Proof. intros H. unfold listActivities; simpl. rewrite H. reflexivity. Qed.

Lemma listHotels_no_ticket (e : Enrollment.t) :
  enrollment_findWithAddressByUserId s userId = Some e ->
  ticket_findTicketByEnrollmentId s (Enrollment.id e) = None ->
  run (listHotels userId) s =
  mkOutcome (Err cannotListHotelsError) s
    [QFindWithAddressByUserId userId; QFindTicketByEnrollmentId (Enrollment.id e)].
Proof. intros He Ht. unfold listHotels; simpl. rewrite He; simpl. rewrite Ht. reflexivity. Qed.

Lemma listHotels_ticket (e : Enrollment.t) (t : Ticket.t) :
  enrollment_findWithAddressByUserId s userId = Some e ->
  ticket_findTicketByEnrollmentId s (Enrollment.id e) = Some t ->
  run (listHotels userId) s =
  mkOutcome
    (if TicketStatus_eqb (Ticket.status t) RESERVED
        || TicketType.isRemote (Ticket.TicketType t)
        || negb (TicketType.includesHotel (Ticket.TicketType t))
     then Err cannotListHotelsError else Ok tt)
    s
    [QFindWithAddressByUserId userId; QFindTicketByEnrollmentId (Enrollment.id e)].
Proof.
  intros He Ht. unfold listHotels; simpl. rewrite He; simpl. rewrite Ht; simpl.
  destruct (TicketStatus_eqb _ _ || _ || _); reflexivity.
Qed.

Lemma listActivities_no_ticket (e : Enrollment.t) :
  enrollment_findWithAddressByUserId s userId = Some e ->
  ticket_findTicketByEnrollmentId s (Enrollment.id e) = None ->
  run (listActivities userId) s =
  mkOutcome (Err cannotListActivities) s
    [QFindWithAddressByUserId userId; QFindTicketByEnrollmentId (Enrollment.id e)].
Proof. intros He Ht. unfold listActivities; simpl. rewrite He; simpl. rewrite Ht. reflexivity. Qed.

Lemma listActivities_ticket_refused (e : Enrollment.t) (t : Ticket.t) :
  enrollment_findWithAddressByUserId s userId = Some e ->
  ticket_findTicketByEnrollmentId s (Enrollment.id e) = Some t ->
  TicketStatus_eqb (Ticket.status t) RESERVED
    || TicketType.isRemote (Ticket.TicketType t) = true ->
  run (listActivities userId) s =
  mkOutcome (Err cannotListActivities) s
    [QFindWithAddressByUserId userId; QFindTicketByEnrollmentId (Enrollment.id e)].
Proof.
  intros He Ht Hc. unfold listActivities; simpl. rewrite He; simpl. rewrite Ht; simpl.
  rewrite Hc. reflexivity.
Qed.

Lemma listActivities_ticket_accepted (e : Enrollment.t) (t : Ticket.t) :
  enrollment_findWithAddressByUserId s userId = Some e ->
  ticket_findTicketByEnrollmentId s (Enrollment.id e) = Some t ->
  TicketStatus_eqb (Ticket.status t) RESERVED
    || TicketType.isRemote (Ticket.TicketType t) = false ->
  run (listActivities userId) s =
  mkOutcome
    (match booking_findByUserId s userId with
     | None => Err notFoundError
     | Some _ => Ok tt
     end)
    s
    [QFindWithAddressByUserId userId;
     QFindTicketByEnrollmentId (Enrollment.id e);
     QFindByUserId userId].
Proof.
  intros He Ht Hc. unfold listActivities; simpl. rewrite He; simpl. rewrite Ht; simpl.
  rewrite Hc; simpl. destruct (booking_findByUserId s userId); reflexivity.
Qed.

(** Neither guard writes. *)
Lemma listHotels_store : store (run (listHotels userId) s) = s.
Proof.
  destruct (enrollment_findWithAddressByUserId s userId) as [e |] eqn:He.
  - destruct (ticket_findTicketByEnrollmentId s (Enrollment.id e)) as [t |] eqn:Ht.
    + rewrite (listHotels_ticket e t He Ht). reflexivity.
    + rewrite (listHotels_no_ticket e He Ht). reflexivity.
  - rewrite (listHotels_no_enrollment He). reflexivity.
Qed.

Lemma listActivities_store : store (run (listActivities userId) s) = s.
Proof.
  destruct (enrollment_findWithAddressByUserId s userId) as [e |] eqn:He.
  - destruct (ticket_findTicketByEnrollmentId s (Enrollment.id e)) as [t |] eqn:Ht.
    + destruct (TicketStatus_eqb (Ticket.status t) RESERVED
                || TicketType.isRemote (Ticket.TicketType t)) eqn:Hc.
      * rewrite (listActivities_ticket_refused e t He Ht Hc). reflexivity.
      * rewrite (listActivities_ticket_accepted e t He Ht Hc). reflexivity.
    + rewrite (listActivities_no_ticket e He Ht). reflexivity.
  - rewrite (listActivities_no_enrollment He). reflexivity.
Qed.
End Guards.

(** ** The services behind their guards *)

Lemma run_guarded {A : Type} (guard : Prog unit) (k : Prog A) (s : Store) :
  store (run guard s) = s ->
  run (guard ;;; k) s =
  match result (run guard s) with
  | Ok _ =>
      mkOutcome (result (run k s)) (store (run k s))
                (trace (run guard s) ++ trace (run k s))
  | Err e => mkOutcome (Err e) s (trace (run guard s))
  end.
Proof.
  intros Hs. rewrite run_bind, Hs.
  destruct (result (run guard s)); reflexivity.
Qed.

Lemma run_getHotels (s : Store) (userId : Z) :
  run (getHotels userId) s =
  match result (run (listHotels userId) s) with
  | Ok _ =>
      mkOutcome (Ok (hotel_findMany s)) s
                (trace (run (listHotels userId) s) ++ [QHotelFindMany])
  | Err e => mkOutcome (Err e) s (trace (run (listHotels userId) s))
  end.
Proof.
  unfold getHotels. rewrite (run_guarded _ _ s (listHotels_store s userId)).
  reflexivity.
Qed.

Lemma run_getHotelsWithRooms (s : Store) (userId hotelId : Z) :
  run (getHotelsWithRooms userId hotelId) s =
  match result (run (listHotels userId) s) with
  | Ok _ =>
      mkOutcome
        (match hotel_findFirst_Rooms s hotelId with
         | Ok (Some hotel) => Ok hotel
         | Ok None => Err notFoundError
         | Err e => Err e
         end)
        s
        (trace (run (listHotels userId) s) ++ [QHotelFindFirstRooms hotelId])
  | Err e => mkOutcome (Err e) s (trace (run (listHotels userId) s))
  end.
Proof.
  unfold getHotelsWithRooms. rewrite (run_guarded _ _ s (listHotels_store s userId)).
  destruct (result (run (listHotels userId) s)); [| reflexivity].
  simpl. destruct (hotel_findFirst_Rooms s hotelId) as [[hotel |] | e]; reflexivity.
Qed.

(** The hotel lookup fails in one way only, and only out of range. *)
Lemma hotel_findFirst_Rooms_error (s : Store) (hotelId : Z) (err : ApplicationError) :
  hotel_findFirst_Rooms s hotelId = Err err -> err = prismaRangeError.
Proof.
  unfold hotel_findFirst_Rooms. destruct (fitsInt hotelId); [discriminate |].
  intros [= <-]. reflexivity.
Qed.

Lemma fitsInt_range (n : Z) :
  fitsInt n = true <-> -2147483648 <= n <= 2147483647.
Proof. unfold fitsInt. rewrite andb_true_iff, !Z.leb_le. reflexivity. Qed.

Lemma run_getAllHotelsWithRooms (s : Store) (userId : Z) :
  run (getAllHotelsWithRooms userId) s =
  match result (run (listHotels userId) s) with
  | Ok _ =>
      mkOutcome (Ok (hotel_findMany_Rooms_Booking s)) s
                (trace (run (listHotels userId) s) ++ [QHotelFindManyRoomsBooking])
  | Err e => mkOutcome (Err e) s (trace (run (listHotels userId) s))
  end.
Proof.
  unfold getAllHotelsWithRooms.
  rewrite (run_guarded _ _ s (listHotels_store s userId)). reflexivity.
Qed.

Lemma run_getActivities (s : Store) (userId : Z) :
  run (getActivities userId) s =
  match result (run (listActivities userId) s) with
  | Ok _ =>
      mkOutcome
        (Ok (map (fun activity =>
                    activitiesWithUser_callback activity
                      (activities_findUserActivities s userId))
                 (activities_findAllActivities s)))
        s
        (trace (run (listActivities userId) s)
           ++ [QFindAllActivities; QFindUserActivities userId])
  | Err e => mkOutcome (Err e) s (trace (run (listActivities userId) s))
  end.
Proof.
  unfold getActivities.
  rewrite (run_guarded _ _ s (listActivities_store s userId)). reflexivity.
Qed.

Lemma run_createUserActivity (s : Store) (userId activityId : Z) :
  run (createUserActivity userId activityId) s =
  match result (run (listActivities userId) s) with
  | Ok _ =>
      mkOutcome
        (fst (activities_registerInActivity s userId activityId))
        (snd (activities_registerInActivity s userId activityId))
        (trace (run (listActivities userId) s)
           ++ [QRegisterInActivity userId activityId])
  | Err e => mkOutcome (Err e) s (trace (run (listActivities userId) s))
  end.
Proof.
  unfold createUserActivity.
  rewrite (run_guarded _ _ s (listActivities_store s userId)).
  destruct (result (run (listActivities userId) s)); [| reflexivity].
  unfold await; simpl.
  destruct (activities_registerInActivity s userId activityId) as [[r | e] s'];
    reflexivity.
Qed.

(** ** Properties of the services *)

Lemma no_enrollment_find (s : Store) (userId : Z) :
  (forall e, In e (enrollment s) -> Enrollment.userId e <> userId) ->
  enrollment_findWithAddressByUserId s userId = None.
Proof.
  intros H. apply find_none_iff. intros e He.
  apply Z.eqb_neq. exact (H e He).
Qed.

(** C4: when the store holds no enrollment of [userId], each of the five
    guarded operations fails with NotFound, leaves the store as it was, and
    the enrollment lookup is the only call that reached the store. *)
Theorem no_enrollment_fails_NotFound (s : Store) (userId : Z) :
  (forall e, In e (enrollment s) -> Enrollment.userId e <> userId) ->
  run (getHotels userId) s
    = mkOutcome (Err notFoundError) s [QFindWithAddressByUserId userId]
  /\ (forall hotelId,
        run (getHotelsWithRooms userId hotelId) s
          = mkOutcome (Err notFoundError) s [QFindWithAddressByUserId userId])
  /\ run (getAllHotelsWithRooms userId) s
       = mkOutcome (Err notFoundError) s [QFindWithAddressByUserId userId]
  /\ run (getActivities userId) s
       = mkOutcome (Err notFoundError) s [QFindWithAddressByUserId userId]
  /\ (forall activityId,
        run (createUserActivity userId activityId) s
          = mkOutcome (Err notFoundError) s [QFindWithAddressByUserId userId])
  /\ kind notFoundError = NotFound.
Proof.
  intros H. apply no_enrollment_find in H.
  pose proof (listHotels_no_enrollment s userId H) as Hh.
  pose proof (listActivities_no_enrollment s userId H) as Ha.
  repeat split; intros.
  - rewrite run_getHotels, Hh. reflexivity.
  - rewrite run_getHotelsWithRooms, Hh. reflexivity.
  - rewrite run_getAllHotelsWithRooms, Hh. reflexivity.
  - rewrite run_getActivities, Ha. reflexivity.
  - rewrite run_createUserActivity, Ha. reflexivity.
Qed.

Lemma no_enrollment_fails_NotFound_witness :
  run (getHotels 6) Sample.registered
    = mkOutcome (Err notFoundError) Sample.registered [QFindWithAddressByUserId 6]
  /\ run (createUserActivity 6 10) Sample.registered
       = mkOutcome (Err notFoundError) Sample.registered [QFindWithAddressByUserId 6].
Proof.
  assert (H : forall e, In e (enrollment Sample.registered) -> Enrollment.userId e <> 6).
  { simpl. intros e [<- | [<- | [<- | [<- | [<- | []]]]]]; discriminate. }
  destruct (no_enrollment_fails_NotFound Sample.registered 6 H)
    as (H1 & _ & _ & _ & H5 & _).
  split; [exact H1 | exact (H5 10)].
Defined.

Lemma hotelTicketRefused_decide (ticket : option Ticket.t) :
  hotelTicketRefused ticket <->
  match ticket with
  | None => True
  | Some t =>
      TicketStatus_eqb (Ticket.status t) RESERVED
        || TicketType.isRemote (Ticket.TicketType t)
        || negb (TicketType.includesHotel (Ticket.TicketType t)) = true
  end.
Proof.
  unfold hotelTicketRefused. destruct ticket as [t |].
  - split.
    + intros [H | (t' & [= <-] & H)]; [discriminate |].
      destruct H as [-> | [-> | ->]]; simpl.
      * reflexivity.
      * apply orb_true_iff; left. apply orb_true_r.
      * apply orb_true_r.
    + intros H. right. exists t. split; [reflexivity |].
      destruct (Ticket.status t); [left; reflexivity |].
      destruct (TicketType.isRemote _); [right; left; reflexivity |].
      destruct (TicketType.includesHotel _); [discriminate | right; right; reflexivity].
  - split; [trivial | intros _; left; reflexivity].
Qed.

Lemma listHotels_result (s : Store) (userId : Z) (e : Enrollment.t) :
  enrollment_findWithAddressByUserId s userId = Some e ->
  (hotelTicketRefused (ticket_findTicketByEnrollmentId s (Enrollment.id e))
   /\ result (run (listHotels userId) s) = Err cannotListHotelsError)
  \/ (~ hotelTicketRefused (ticket_findTicketByEnrollmentId s (Enrollment.id e))
      /\ result (run (listHotels userId) s) = Ok tt).
Proof.
  intros He.
  destruct (ticket_findTicketByEnrollmentId s (Enrollment.id e)) as [t |] eqn:Ht.
  - rewrite (listHotels_ticket s userId e t He Ht). simpl.
    rewrite hotelTicketRefused_decide.
    destruct (TicketStatus_eqb _ _ || _ || _).
    + left. split; reflexivity.
    + right. split; [discriminate | reflexivity].
  - rewrite (listHotels_no_ticket s userId e He Ht). simpl.
    left. split; [left |]; reflexivity.
Qed.

(** C2: for a user with an enrollment, the hotel guard, and with it each of
    the three hotel operations, fails with the Forbidden error "cannot list
    hotels" exactly when the enrollment's ticket is absent, or RESERVED, or
    of a remote type, or of a type without hotel; otherwise the guard
    succeeds and each operation goes on to its hotel query. *)
Theorem hotel_guard_forbidden_iff (s : Store) (userId : Z) (e : Enrollment.t) :
  enrollment_findWithAddressByUserId s userId = Some e ->
  let refused :=
    hotelTicketRefused (ticket_findTicketByEnrollmentId s (Enrollment.id e)) in
  (result (run (listHotels userId) s) = Err cannotListHotelsError <-> refused)
  /\ (result (run (getHotels userId) s) = Err cannotListHotelsError <-> refused)
  /\ (forall hotelId,
        result (run (getHotelsWithRooms userId hotelId) s) = Err cannotListHotelsError
        <-> refused)
  /\ (result (run (getAllHotelsWithRooms userId) s) = Err cannotListHotelsError
      <-> refused)
  /\ (~ refused ->
      result (run (listHotels userId) s) = Ok tt
      /\ result (run (getHotels userId) s) = Ok (hotel_findMany s)
      /\ (forall hotelId,
            In (QHotelFindFirstRooms hotelId)
               (trace (run (getHotelsWithRooms userId hotelId) s)))
      /\ result (run (getAllHotelsWithRooms userId) s)
           = Ok (hotel_findMany_Rooms_Booking s))
  /\ kind cannotListHotelsError = Forbidden
  /\ message cannotListHotelsError = Some "cannot list hotels"%string.
Proof.
  intros He refused.
  destruct (listHotels_result s userId e He) as [[Hr Hg] | [Hr Hg]];
    fold refused in Hr.
  - repeat split; try tauto; intros.
    + rewrite run_getHotels, Hg. reflexivity.
    + rewrite run_getHotelsWithRooms, Hg. reflexivity.
    + rewrite run_getAllHotelsWithRooms, Hg. reflexivity.
  - repeat split; try tauto; intros.
    + rewrite Hg in *. discriminate.
    + rewrite run_getHotels, Hg in *. discriminate.
    + rewrite run_getHotelsWithRooms, Hg in *. simpl in *.
      destruct (hotel_findFirst_Rooms s hotelId) as [[hotel |] | err] eqn:Hf;
        [discriminate | discriminate |].
      rewrite (hotel_findFirst_Rooms_error s hotelId err Hf) in *. discriminate.
    + rewrite run_getAllHotelsWithRooms, Hg in *. discriminate.
    + rewrite run_getHotels, Hg. reflexivity.
    + rewrite run_getHotelsWithRooms, Hg. cbn [trace].
      apply in_or_app. right. left. reflexivity.
    + rewrite run_getAllHotelsWithRooms, Hg. reflexivity.
Qed.

Lemma hotel_guard_forbidden_iff_witness :
  (result (run (getHotels 2) Sample.fresh) = Err cannotListHotelsError
   <-> hotelTicketRefused
         (ticket_findTicketByEnrollmentId Sample.fresh
            (Enrollment.id Sample.enrollment2)))
  /\ result (run (getHotels 2) Sample.fresh) = Err cannotListHotelsError
  /\ result (run (getHotels 1) Sample.fresh) = Ok (hotel Sample.fresh).
Proof.
  destruct (hotel_guard_forbidden_iff Sample.fresh 2 Sample.enrollment2 eq_refl)
    as (_ & H2 & _).
  destruct (hotel_guard_forbidden_iff Sample.fresh 1 Sample.enrollment1 eq_refl)
    as (_ & _ & _ & _ & H1 & _).
  split; [exact H2 |]. split; [reflexivity |].
  apply H1. intros [H | (t & [= <-] & [H | [H | H]])]; discriminate.
Defined.

(** The hotel guard looks up the enrollment and its ticket, nothing else. *)
Lemma listHotels_trace (s : Store) (userId : Z) (q : Query) :
  In q (trace (run (listHotels userId) s)) ->
  q = QFindWithAddressByUserId userId
  \/ exists enrollmentId, q = QFindTicketByEnrollmentId enrollmentId.
Proof.
  destruct (enrollment_findWithAddressByUserId s userId) as [e |] eqn:He.
  - destruct (ticket_findTicketByEnrollmentId s (Enrollment.id e)) as [t |] eqn:Ht.
    + rewrite (listHotels_ticket s userId e t He Ht).
      intros [<- | [<- | []]]; [left | right; eexists]; reflexivity.
    + rewrite (listHotels_no_ticket s userId e He Ht).
      intros [<- | [<- | []]]; [left | right; eexists]; reflexivity.
  - rewrite (listHotels_no_enrollment s userId He).
    intros [<- | []]. left; reflexivity.
Qed.

(** C9: the three hotel operations leave the store as they found it, so the
    same call repeated on the store it left behind has the same outcome. *)
Theorem hotel_operations_read_only (s : Store) (userId hotelId : Z) :
  (store (run (getHotels userId) s) = s
   /\ store (run (getHotelsWithRooms userId hotelId) s) = s
   /\ store (run (getAllHotelsWithRooms userId) s) = s)
  /\ (run (getHotels userId) (store (run (getHotels userId) s))
        = run (getHotels userId) s
      /\ run (getHotelsWithRooms userId hotelId)
             (store (run (getHotelsWithRooms userId hotelId) s))
           = run (getHotelsWithRooms userId hotelId) s
      /\ run (getAllHotelsWithRooms userId)
             (store (run (getAllHotelsWithRooms userId) s))
           = run (getAllHotelsWithRooms userId) s)
  /\ (forall q userId' activityId,
        In q (trace (run (getHotels userId) s)
                ++ trace (run (getHotelsWithRooms userId hotelId) s)
                ++ trace (run (getAllHotelsWithRooms userId) s)) ->
        q <> QRegisterInActivity userId' activityId).
Proof.
  assert (H1 : store (run (getHotels userId) s) = s).
  { rewrite run_getHotels. destruct (result (run (listHotels userId) s)); reflexivity. }
  assert (H2 : store (run (getHotelsWithRooms userId hotelId) s) = s).
  { rewrite run_getHotelsWithRooms.
    destruct (result (run (listHotels userId) s)); reflexivity. }
  assert (H3 : store (run (getAllHotelsWithRooms userId) s) = s).
  { rewrite run_getAllHotelsWithRooms.
    destruct (result (run (listHotels userId) s)); reflexivity. }
  split; [auto |]. split; [rewrite H1, H2, H3; auto |].
  intros q userId' activityId Hq ->.
  rewrite run_getHotels, run_getHotelsWithRooms, run_getAllHotelsWithRooms in Hq.
  assert (Hg : ~ In (QRegisterInActivity userId' activityId)
                    (trace (run (listHotels userId) s))).
  { intros Hin. destruct (listHotels_trace s userId _ Hin) as [H | [x H]]; discriminate. }
  destruct (result (run (listHotels userId) s)); cbn [trace] in Hq;
    repeat (apply in_app_or in Hq; destruct Hq as [Hq | Hq]);
    try (exact (Hg Hq));
    destruct Hq as [Hq | []]; discriminate.
Qed.

Lemma hotel_findFirst_Rooms_none (s : Store) (hotelId : Z) :
  -2147483648 <= hotelId <= 2147483647 ->
  (forall h, In h (hotel s) -> Hotel.id h <> hotelId) ->
  hotel_findFirst_Rooms s hotelId = Ok None.
Proof.
  intros Hfit H. unfold hotel_findFirst_Rooms.
  rewrite (proj2 (fitsInt_range hotelId) Hfit).
  replace (find (fun h => Hotel.id h =? hotelId) (hotel s)) with (@None Hotel.t);
    [reflexivity |].
  symmetry. apply find_none_iff. intros h Hh. apply Z.eqb_neq. exact (H h Hh).
Qed.

Lemma hotel_findFirst_Rooms_some (s : Store) (hotelId : Z) (h : Hotel.t) :
  -2147483648 <= hotelId <= 2147483647 ->
  In h (hotel s) -> Hotel.id h = hotelId ->
  exists h', In h' (hotel s) /\ Hotel.id h' = hotelId
             /\ hotel_findFirst_Rooms s hotelId
                = Ok (Some (HotelWithRooms.mk hotelId (Hotel.name h') (roomsOf s hotelId))).
Proof.
  intros Hfit Hin Hid. unfold hotel_findFirst_Rooms.
  rewrite (proj2 (fitsInt_range hotelId) Hfit).
  destruct (find (fun h => Hotel.id h =? hotelId) (hotel s)) as [h' |] eqn:Hf.
  - destruct (find_some _ _ Hf) as [Hin' Hid']. apply Z.eqb_eq in Hid'.
    exists h'. rewrite Hid'. auto.
  - pose proof (find_none _ _ Hf h Hin) as Hn. apply Z.eqb_neq in Hn. contradiction.
Qed.

(** C8, as the claim states it, at a hotel id the key column cannot hold:
    user 1 passes the hotel guard and no hotel of the store has the id
    2147483648, yet the call does not fail with NotFound; the hotel query
    itself fails and its error goes through the service. *)
Lemma getHotelsWithRooms_by_id_counterexample :
  passesHotelGuard Sample.fresh 1
  /\ (forall h, In h (hotel Sample.fresh) -> Hotel.id h <> 2147483648)
  /\ result (run (getHotelsWithRooms 1 2147483648) Sample.fresh) = Err prismaRangeError
  /\ result (run (getHotelsWithRooms 1 2147483648) Sample.fresh) <> Err notFoundError.
Proof.
  split; [reflexivity |]. split.
  - simpl. intros h [<- | [<- | []]]; discriminate.
  - split; [reflexivity | discriminate].
Qed.

(** C8, amended: behind a passing hotel guard and for a hotel id within the
    range of the 32-bit integer key, [getHotelsWithRooms] fails with
    NotFound when no hotel of the store has the given id; when one has, the
    call returns a hotel of the store with that id together with its rooms,
    which are the rooms of the store that belong to that hotel. *)
Theorem getHotelsWithRooms_by_id (s : Store) (userId hotelId : Z) :
  passesHotelGuard s userId ->
  -2147483648 <= hotelId <= 2147483647 ->
  ((forall h, In h (hotel s) -> Hotel.id h <> hotelId) ->
   result (run (getHotelsWithRooms userId hotelId) s) = Err notFoundError)
  /\ (forall h, In h (hotel s) -> Hotel.id h = hotelId ->
      exists found,
        result (run (getHotelsWithRooms userId hotelId) s) = Ok found
        /\ HotelWithRooms.id found = hotelId
        /\ (exists h', In h' (hotel s) /\ Hotel.id h' = hotelId
                       /\ HotelWithRooms.name found = Hotel.name h')
        /\ (forall r, In r (HotelWithRooms.Rooms found)
                      <-> In r (room s) /\ Room.hotelId r = hotelId)).
Proof.
  unfold passesHotelGuard. intros Hg Hfit. split.
  - intros Hnone. rewrite run_getHotelsWithRooms, Hg.
    rewrite (hotel_findFirst_Rooms_none s hotelId Hfit Hnone). reflexivity.
  - intros h Hin Hid.
    destruct (hotel_findFirst_Rooms_some s hotelId h Hfit Hin Hid)
      as (h' & Hin' & Hid' & Hf).
    eexists. rewrite run_getHotelsWithRooms, Hg, Hf. cbn [result].
    split; [reflexivity |]. split; [reflexivity |]. split.
    + exists h'. auto.
    + intros r. cbn [HotelWithRooms.Rooms]. unfold roomsOf.
      rewrite filter_In, Z.eqb_eq. reflexivity.
Qed.

Lemma getHotelsWithRooms_by_id_witness :
  result (run (getHotelsWithRooms 1 9) Sample.fresh) = Err notFoundError
  /\ exists found,
       result (run (getHotelsWithRooms 1 1) Sample.fresh) = Ok found
       /\ HotelWithRooms.Rooms found = [Room.mk 101 "101" 2 1; Room.mk 102 "102" 3 1].
Proof.
  split.
  - apply (getHotelsWithRooms_by_id Sample.fresh 1 9 eq_refl); [lia |].
    simpl. intros h [<- | [<- | []]]; discriminate.
  - destruct (proj2 (getHotelsWithRooms_by_id Sample.fresh 1 1 eq_refl ltac:(lia))
                (Hotel.mk 1 "Palace") (or_introl eq_refl) eq_refl)
      as (found & Hf & _).
    exists found. split; [exact Hf |].
    vm_compute in Hf. injection Hf as <-. reflexivity.
Defined.

Lemma status_not_reserved (t : Ticket.t) :
  Ticket.status t <> RESERVED ->
  TicketStatus_eqb (Ticket.status t) RESERVED = false.
Proof. destruct (Ticket.status t); [contradiction | reflexivity]. Qed.

Lemma no_booking_find (s : Store) (userId : Z) :
  (forall b, In b (booking s) -> Booking.userId b <> userId) ->
  booking_findByUserId s userId = None.
Proof.
  intros H. apply find_none_iff. intros b Hb. apply Z.eqb_neq. exact (H b Hb).
Qed.

(** C3: with an enrollment, a ticket that is not RESERVED, not remote and
    without hotel, and a booking, the activity guard succeeds,
    [getActivities] returns a list and [createUserActivity] reaches the
    registration call, while the hotel guard and the three hotel operations
    fail with Forbidden. *)
Theorem activity_guard_ignores_includesHotel
  (s : Store) (userId : Z) (e : Enrollment.t) (t : Ticket.t) (b : Booking.t) :
  enrollment_findWithAddressByUserId s userId = Some e ->
  ticket_findTicketByEnrollmentId s (Enrollment.id e) = Some t ->
  Ticket.status t <> RESERVED ->
  TicketType.isRemote (Ticket.TicketType t) = false ->
  TicketType.includesHotel (Ticket.TicketType t) = false ->
  booking_findByUserId s userId = Some b ->
  (result (run (listActivities userId) s) = Ok tt
   /\ (exists out, result (run (getActivities userId) s) = Ok out)
   /\ (forall activityId,
         In (QRegisterInActivity userId activityId)
            (trace (run (createUserActivity userId activityId) s))))
  /\ (result (run (listHotels userId) s) = Err cannotListHotelsError
      /\ result (run (getHotels userId) s) = Err cannotListHotelsError
      /\ (forall hotelId,
            result (run (getHotelsWithRooms userId hotelId) s)
              = Err cannotListHotelsError)
      /\ result (run (getAllHotelsWithRooms userId) s) = Err cannotListHotelsError
      /\ kind cannotListHotelsError = Forbidden).
Proof.
  intros He Ht Hs Hr Hi Hb.
  assert (Hc : TicketStatus_eqb (Ticket.status t) RESERVED
               || TicketType.isRemote (Ticket.TicketType t) = false).
  { rewrite (status_not_reserved t Hs), Hr. reflexivity. }
  pose proof (listActivities_ticket_accepted s userId e t He Ht Hc) as Ha.
  rewrite Hb in Ha.
  assert (Hh : result (run (listHotels userId) s) = Err cannotListHotelsError).
  { rewrite (listHotels_ticket s userId e t He Ht), Hc, Hi. reflexivity. }
  split.
  - split; [rewrite Ha; reflexivity |]. split.
    + eexists. rewrite run_getActivities, Ha. reflexivity.
    + intros activityId. rewrite run_createUserActivity, Ha. cbn [result trace].
      apply in_or_app. right. left. reflexivity.
  - repeat split; intros.
    + exact Hh.
    + rewrite run_getHotels, Hh. reflexivity.
    + rewrite run_getHotelsWithRooms, Hh. reflexivity.
    + rewrite run_getAllHotelsWithRooms, Hh. reflexivity.
Qed.

Lemma activity_guard_ignores_includesHotel_witness :
  result (run (listActivities 2) Sample.fresh) = Ok tt
  /\ result (run (listHotels 2) Sample.fresh) = Err cannotListHotelsError.
Proof.
  destruct (activity_guard_ignores_includesHotel
              Sample.fresh 2 Sample.enrollment2
              (Ticket.mk 22 12 PAID Sample.inPersonNoHotel) (Booking.mk 2 2 102)
              eq_refl eq_refl ltac:(discriminate) eq_refl eq_refl eq_refl)
    as ((Ha & _) & (Hh & _)).
  split; assumption.
Defined.

(** C5: with an enrollment and a ticket that is neither RESERVED nor remote,
    but no booking of the user in the store, [getActivities] and
    [createUserActivity] fail with NotFound and write nothing.  The hotel
    guard never looks a booking up, in any store and for any user, and it
    lets this user through when the ticket type includes the hotel. *)
Theorem no_booking_fails_NotFound
  (s : Store) (userId : Z) (e : Enrollment.t) (t : Ticket.t) :
  enrollment_findWithAddressByUserId s userId = Some e ->
  ticket_findTicketByEnrollmentId s (Enrollment.id e) = Some t ->
  Ticket.status t <> RESERVED ->
  TicketType.isRemote (Ticket.TicketType t) = false ->
  (forall b, In b (booking s) -> Booking.userId b <> userId) ->
  (result (run (getActivities userId) s) = Err notFoundError
   /\ (forall activityId,
         result (run (createUserActivity userId activityId) s) = Err notFoundError
         /\ store (run (createUserActivity userId activityId) s) = s)
   /\ In (QFindByUserId userId) (trace (run (listActivities userId) s)))
  /\ (forall s' userId' userId'',
        ~ In (QFindByUserId userId'') (trace (run (listHotels userId') s')))
  /\ (TicketType.includesHotel (Ticket.TicketType t) = true ->
      result (run (listHotels userId) s) = Ok tt).
Proof.
  intros He Ht Hs Hr Hb.
  assert (Hc : TicketStatus_eqb (Ticket.status t) RESERVED
               || TicketType.isRemote (Ticket.TicketType t) = false).
  { rewrite (status_not_reserved t Hs), Hr. reflexivity. }
  pose proof (listActivities_ticket_accepted s userId e t He Ht Hc) as Ha.
  rewrite (no_booking_find s userId Hb) in Ha.
  split; [| split].
  - split; [rewrite run_getActivities, Ha; reflexivity |]. split.
    + intros activityId. rewrite run_createUserActivity, Ha. split; reflexivity.
    + rewrite Ha. cbn [trace]. right; right; left. reflexivity.
  - intros s' userId' userId'' Hin.
    destruct (listHotels_trace s' userId' _ Hin) as [H | [x H]]; discriminate.
  - intros Hi. rewrite (listHotels_ticket s userId e t He Ht), Hc, Hi. reflexivity.
Qed.

Lemma no_booking_fails_NotFound_witness :
  result (run (getActivities 5) Sample.fresh) = Err notFoundError
  /\ result (run (listHotels 5) Sample.fresh) = Ok tt.
Proof.
  assert (Hb : forall b, In b (booking Sample.fresh) -> Booking.userId b <> 5).
  { simpl. intros b [<- | [<- | []]]; discriminate. }
  destruct (no_booking_fails_NotFound
              Sample.fresh 5 Sample.enrollment5 (Ticket.mk 25 15 PAID Sample.inPerson)
              eq_refl eq_refl ltac:(discriminate) eq_refl Hb)
    as ((Hg & _) & _ & Hh).
  split; [exact Hg | exact (Hh eq_refl)].
Defined.

(** The loop of the callback: the flag is set exactly when one of the
    registrations it scans names the activity. *)
Lemma callback_userSubscribed (activity : Activities.t) (rows : list UserActivities.t) :
  ActivityWithUser.userSubscribed (activitiesWithUser_callback activity rows) = true
  <-> exists r, In r rows /\ UserActivities.activityId r = Activities.id activity.
Proof.
  induction rows as [| r rows IH]; simpl.
  - split; [discriminate | intros (r & [] & _)].
  - destruct (Activities.id activity =? UserActivities.activityId r) eqn:Heq.
    + apply Z.eqb_eq in Heq. simpl. split; [| reflexivity].
      intros _. exists r. auto.
    + apply Z.eqb_neq in Heq. rewrite IH. split.
      * intros (r' & Hin & Hid). exists r'. auto.
      * intros (r' & [<- | Hin] & Hid); [congruence |]. exists r'. auto.
Qed.

(** The callback copies the activity, whatever the flag. *)
Lemma callback_activity (activity : Activities.t) (rows : list UserActivities.t) :
  ActivityWithUser.activity (activitiesWithUser_callback activity rows) = activity.
Proof.
  induction rows as [| r rows IH]; simpl.
  - destruct activity; reflexivity.
  - destruct (Activities.id activity =? UserActivities.activityId r);
      [destruct activity; reflexivity | exact IH].
Qed.

Lemma findUserActivities_subscribed (s : Store) (userId activityId : Z) :
  (exists r, In r (activities_findUserActivities s userId)
             /\ UserActivities.activityId r = activityId)
  <-> subscribedTo s userId activityId.
Proof.
  unfold subscribedTo, activities_findUserActivities. split.
  - intros (r & Hin & Hid). apply filter_In in Hin. destruct Hin as [Hin Hu].
    apply Z.eqb_eq in Hu. exists r. auto.
  - intros (r & Hin & Hu & Hid). exists r. split; [| exact Hid].
    apply filter_In. split; [exact Hin | apply Z.eqb_eq; exact Hu].
Qed.

(** C1: behind a passing activity guard, [getActivities] returns one element
    per activity of the catalog, position by position, and the
    [userSubscribed] flag of an element is true exactly when some
    registration of the store that belongs to the user names that
    activity. *)
Theorem getActivities_annotates (s : Store) (userId : Z) :
  passesActivityGuard s userId ->
  exists out,
    result (run (getActivities userId) s) = Ok out
    /\ List.length out = List.length (activities s)
    /\ Forall2
         (fun activity o =>
            ActivityWithUser.id o = Activities.id activity
            /\ (ActivityWithUser.userSubscribed o = true
                <-> subscribedTo s userId (Activities.id activity)))
         (activities s) out
    /\ (forall o, In o out ->
          (ActivityWithUser.userSubscribed o = true
           <-> subscribedTo s userId (ActivityWithUser.id o))).
Proof.
  unfold passesActivityGuard. intros Hg.
  eexists. rewrite run_getActivities, Hg. cbn [result].
  split; [reflexivity |]. unfold activities_findAllActivities.
  split; [apply List.length_map |].
  assert (Hid : forall a rows,
             ActivityWithUser.id (activitiesWithUser_callback a rows) = Activities.id a).
  { intros a rows. rewrite <- (callback_activity a rows) at 2. reflexivity. }
  split.
  - induction (activities s) as [| a l IH]; simpl; constructor; [| exact IH].
    split; [apply Hid |].
    rewrite callback_userSubscribed. apply findUserActivities_subscribed.
  - intros o Ho. apply in_map_iff in Ho. destruct Ho as (a & <- & _).
    rewrite Hid, callback_userSubscribed. apply findUserActivities_subscribed.
Qed.

Lemma getActivities_annotates_witness :
  exists out,
    result (run (getActivities 2) Sample.registered) = Ok out
    /\ List.length out = 3%nat
    /\ map ActivityWithUser.userSubscribed out = [true; false; true].
Proof.
  destruct (getActivities_annotates Sample.registered 2 eq_refl)
    as (out & Hout & Hlen & _).
  exists out. split; [exact Hout |]. split; [exact Hlen |].
  vm_compute in Hout. injection Hout as <-. reflexivity.
Defined.

(** A user without registration, with one, and with several. *)
Example getActivities_no_registration :
  result (run (getActivities 1) Sample.fresh)
  = Ok [ActivityWithUser.spread Sample.lecture false;
        ActivityWithUser.spread Sample.workshop false;
        ActivityWithUser.spread Sample.hackathon false].
Proof. reflexivity. Qed.

Example getActivities_one_registration :
  result (run (getActivities 1) Sample.registered)
  = Ok [ActivityWithUser.spread Sample.lecture false;
        ActivityWithUser.spread Sample.workshop true;
        ActivityWithUser.spread Sample.hackathon false].
Proof. reflexivity. Qed.

Example getActivities_many_registrations :
  result (run (getActivities 2) Sample.registered)
  = Ok [ActivityWithUser.spread Sample.lecture true;
        ActivityWithUser.spread Sample.workshop false;
        ActivityWithUser.spread Sample.hackathon true].
Proof. reflexivity. Qed.

(** C10: behind a passing activity guard, the list [getActivities] returns
    follows the catalog query element by element: taking the
    [userSubscribed] flag away from the elements gives back the activities
    the store's catalog query returned, in that order and with every
    property as it was. *)
Theorem getActivities_keeps_catalog (s : Store) (userId : Z) :
  passesActivityGuard s userId ->
  exists out,
    result (run (getActivities userId) s) = Ok out
    /\ map ActivityWithUser.activity out = activities_findAllActivities s
    /\ (forall i activity,
          nth_error (activities_findAllActivities s) i = Some activity ->
          exists flag,
            nth_error out i = Some (ActivityWithUser.spread activity flag)).
Proof.
  unfold passesActivityGuard. intros Hg.
  eexists. rewrite run_getActivities, Hg. cbn [result].
  split; [reflexivity |]. split.
  - rewrite map_map. rewrite <- (map_id (activities_findAllActivities s)) at 2.
    apply map_ext. intros a. apply callback_activity.
  - intros i activity Hi.
    exists (ActivityWithUser.userSubscribed
              (activitiesWithUser_callback activity
                 (activities_findUserActivities s userId))).
    rewrite nth_error_map, Hi. cbn [option_map]. f_equal.
    generalize (activities_findUserActivities s userId) as rows.
    induction rows as [| r rows IH]; simpl; [reflexivity |].
    destruct (Activities.id activity =? UserActivities.activityId r);
      [reflexivity | exact IH].
Qed.

Lemma getActivities_keeps_catalog_witness :
  exists out,
    result (run (getActivities 1) Sample.registered) = Ok out
    /\ map ActivityWithUser.activity out
       = [Sample.lecture; Sample.workshop; Sample.hackathon].
Proof.
  destruct (getActivities_keeps_catalog Sample.registered 1 eq_refl)
    as (out & Hout & Hmap & _).
  exists out. split; [exact Hout | exact Hmap].
Defined.

(** *** Registration *)

Lemma activityExists_true (s : Store) (activityId : Z) :
  (exists a, In a (activities s) /\ Activities.id a = activityId) ->
  activityExists s activityId = true.
Proof.
  intros (a & Hin & Hid). apply existsb_exists. exists a.
  split; [exact Hin | apply Z.eqb_eq; exact Hid].
Qed.


Lemma userRegistered_false (s : Store) (userId : Z) :
  (forall r, In r (userActivities s) -> UserActivities.userId r <> userId) ->
  userRegistered s userId = false.
Proof.
  intros H. unfold userRegistered.
  destruct (existsb _ (userActivities s)) eqn:Hex; [| reflexivity].
  apply existsb_exists in Hex. destruct Hex as (r & Hin & Hid).
  apply Z.eqb_eq in Hid. destruct (H r Hin Hid).
Qed.

(** What the registration call answers, whichever check comes first. *)
Lemma registerInActivity_inserts (s : Store) (userId activityId : Z) :
  activityExists s activityId = true ->
  userRegistered s userId = false ->
  activities_registerInActivity s userId activityId
  = insertUserActivity s userId activityId.
Proof.
  intros He Hr. unfold activities_registerInActivity. rewrite He, Hr.
  destruct (insertCheck s); reflexivity.
Qed.

Lemma registerInActivity_conflict (s : Store) (userId activityId : Z) :
  activityExists s activityId = true ->
  userRegistered s userId = true ->
  activities_registerInActivity s userId activityId = (Err conflictError, s).
Proof.
  intros He Hr. unfold activities_registerInActivity. rewrite He, Hr.
  destruct (insertCheck s); reflexivity.
Qed.


Lemma registerInActivity_ok_inv
  (s : Store) (userId activityId : Z) (r : UserActivities.t) :
  fst (activities_registerInActivity s userId activityId) = Ok r ->
  activityExists s activityId = true
  /\ userRegistered s userId = false
  /\ activities_registerInActivity s userId activityId
     = insertUserActivity s userId activityId.
Proof.
  unfold activities_registerInActivity.
  destruct (insertCheck s); destruct (activityExists s activityId);
    destruct (userRegistered s userId); cbn [negb fst]; try discriminate;
    intros _; auto.
Qed.

(** The activity guard reads enrollments, tickets and bookings only. *)
Lemma listActivities_setUserActivities
  (s : Store) (userId : Z) (rows : list UserActivities.t) :
  result (run (listActivities userId) (setUserActivities s rows))
  = result (run (listActivities userId) s).
Proof.
  set (s' := setUserActivities s rows).
  destruct (enrollment_findWithAddressByUserId s userId) as [e |] eqn:He.
  - destruct (ticket_findTicketByEnrollmentId s (Enrollment.id e)) as [t |] eqn:Ht.
    + destruct (TicketStatus_eqb (Ticket.status t) RESERVED
                || TicketType.isRemote (Ticket.TicketType t)) eqn:Hc.
      * rewrite (listActivities_ticket_refused s userId e t He Ht Hc).
        rewrite (listActivities_ticket_refused s' userId e t He Ht Hc). reflexivity.
      * rewrite (listActivities_ticket_accepted s userId e t He Ht Hc).
        rewrite (listActivities_ticket_accepted s' userId e t He Ht Hc). reflexivity.
    + rewrite (listActivities_no_ticket s userId e He Ht).
      rewrite (listActivities_no_ticket s' userId e He Ht). reflexivity.
  - rewrite (listActivities_no_enrollment s userId He).
    rewrite (listActivities_no_enrollment s' userId He). reflexivity.
Qed.

(** C6, as the claim states it, at a user who already holds a registration:
    user 1 passes the activity guard and activity 10 exists, yet the first
    of the two calls does not succeed, it fails with Conflict. *)
Lemma createUserActivity_twice_counterexample :
  passesActivityGuard Sample.registered 1
  /\ (exists a, In a (activities Sample.registered) /\ Activities.id a = 10)
  /\ result (run (createUserActivity 1 10) Sample.registered) = Err conflictError
  /\ ~ (exists r, result (run (createUserActivity 1 10) Sample.registered) = Ok r).
Proof.
  split; [reflexivity |]. split; [exists Sample.lecture; simpl; auto |].
  split; [reflexivity |]. intros (r & Hr). discriminate Hr.
Qed.

(** C6, amended: for a user who passes the activity guard and holds no
    registration yet, and activity ids that reference existing activities,
    the first call succeeds, returns a registration with the given user and
    activity, and appends it to the registrations; the second call, on the
    store the first one left, fails with Conflict and writes nothing. *)
Theorem createUserActivity_once_per_user (s : Store) (userId activityId1 activityId2 : Z) :
  passesActivityGuard s userId ->
  (exists a, In a (activities s) /\ Activities.id a = activityId1) ->
  (exists a, In a (activities s) /\ Activities.id a = activityId2) ->
  (forall r, In r (userActivities s) -> UserActivities.userId r <> userId) ->
  exists r,
    result (run (createUserActivity userId activityId1) s) = Ok r
    /\ UserActivities.userId r = userId
    /\ UserActivities.activityId r = activityId1
    /\ store (run (createUserActivity userId activityId1) s)
       = setUserActivities s (userActivities s ++ [r])
    /\ result (run (createUserActivity userId activityId2)
                 (store (run (createUserActivity userId activityId1) s)))
       = Err conflictError
    /\ store (run (createUserActivity userId activityId2)
                (store (run (createUserActivity userId activityId1) s)))
       = store (run (createUserActivity userId activityId1) s)
    /\ kind conflictError = Conflict.
Proof.
  unfold passesActivityGuard. intros Hg H1 H2 Hnew.
  apply activityExists_true in H1, H2. apply userRegistered_false in Hnew.
  set (row := {| UserActivities.id := nextUserActivitiesId s;
                 UserActivities.userId := userId;
                 UserActivities.activityId := activityId1;
                 UserActivities.createdAt := now s;
                 UserActivities.updatedAt := now s |}).
  set (s1 := setUserActivities s (userActivities s ++ [row])).
  assert (Hfirst : run (createUserActivity userId activityId1) s
                   = mkOutcome (Ok row) s1
                       (trace (run (listActivities userId) s)
                          ++ [QRegisterInActivity userId activityId1])).
  { rewrite run_createUserActivity, Hg.
    rewrite (registerInActivity_inserts s userId activityId1 H1 Hnew). reflexivity. }
  assert (Hreg : userRegistered s1 userId = true).
  { unfold userRegistered, s1. cbn [userActivities setUserActivities].
    rewrite existsb_app. apply orb_true_iff. right.
    cbn [existsb row UserActivities.userId]. rewrite Z.eqb_refl. reflexivity. }
  assert (Hsecond : run (createUserActivity userId activityId2) s1
                    = mkOutcome (Err conflictError) s1
                        (trace (run (listActivities userId) s1)
                           ++ [QRegisterInActivity userId activityId2])).
  { rewrite run_createUserActivity.
    unfold s1 at 1. rewrite listActivities_setUserActivities, Hg.
    rewrite (registerInActivity_conflict s1 userId activityId2 H2 Hreg).
    reflexivity. }
  exists row. rewrite Hfirst. cbn [result store]. rewrite Hsecond.
  repeat split; reflexivity.
Qed.

Lemma createUserActivity_once_per_user_witness :
  exists r,
    result (run (createUserActivity 1 10) Sample.fresh) = Ok r
    /\ UserActivities.activityId r = 10
    /\ result (run (createUserActivity 1 30)
                 (store (run (createUserActivity 1 10) Sample.fresh)))
       = Err conflictError.
Proof.
  assert (Hnew : forall r, In r (userActivities Sample.fresh)
                           -> UserActivities.userId r <> 1).
  { simpl. intros r []. }
  destruct (createUserActivity_once_per_user Sample.fresh 1 10 30 eq_refl
              (ex_intro _ Sample.lecture (conj (or_introl eq_refl) eq_refl))
              (ex_intro _ Sample.hackathon
                 (conj (or_intror (or_intror (or_introl eq_refl))) eq_refl))
              Hnew)
    as (r & Hr & _ & Ha & _ & Hc & _).
  exists r. split; [exact Hr |]. split; [exact Ha | exact Hc].
Defined.




(** ** Further properties of the guards *)

Lemma activityTicketRefused_decide (ticket : option Ticket.t) :
  activityTicketRefused ticket <->
  match ticket with
  | None => True
  | Some t =>
      TicketStatus_eqb (Ticket.status t) RESERVED
        || TicketType.isRemote (Ticket.TicketType t) = true
  end.
Proof.
  unfold activityTicketRefused. destruct ticket as [t |].
  - split.
    + intros [H | (t' & [= <-] & [-> | ->])]; [discriminate | reflexivity |].
      apply orb_true_r.
    + intros H. right. exists t. split; [reflexivity |].
      destruct (Ticket.status t); [left; reflexivity |].
      right. exact H.
  - split; [trivial | intros _; left; reflexivity].
Qed.

Lemma hasBooking_find (s : Store) (userId : Z) :
  hasBooking s userId <-> exists b, booking_findByUserId s userId = Some b.
Proof.
  unfold hasBooking, booking_findByUserId. split.
  - intros (b & Hin & Hid).
    destruct (find (fun b => Booking.userId b =? userId) (booking s)) as [b' |] eqn:Hf.
    + exists b'. reflexivity.
    + pose proof (find_none _ _ Hf b Hin) as Hn. apply Z.eqb_neq in Hn. contradiction.
  - intros (b & Hf). apply find_some in Hf. destruct Hf as [Hin Hid].
    apply Z.eqb_eq in Hid. exists b. auto.
Qed.

Lemma listActivities_result (s : Store) (userId : Z) (e : Enrollment.t) :
  enrollment_findWithAddressByUserId s userId = Some e ->
  (activityTicketRefused (ticket_findTicketByEnrollmentId s (Enrollment.id e))
   /\ result (run (listActivities userId) s) = Err cannotListActivities)
  \/ (~ activityTicketRefused (ticket_findTicketByEnrollmentId s (Enrollment.id e))
      /\ ~ hasBooking s userId
      /\ result (run (listActivities userId) s) = Err notFoundError)
  \/ (~ activityTicketRefused (ticket_findTicketByEnrollmentId s (Enrollment.id e))
      /\ hasBooking s userId
      /\ result (run (listActivities userId) s) = Ok tt).
Proof.
  intros He. rewrite activityTicketRefused_decide.
  destruct (ticket_findTicketByEnrollmentId s (Enrollment.id e)) as [t |] eqn:Ht.
  - destruct (TicketStatus_eqb (Ticket.status t) RESERVED
              || TicketType.isRemote (Ticket.TicketType t)) eqn:Hc.
    + left. rewrite (listActivities_ticket_refused s userId e t He Ht Hc).
      split; reflexivity.
    + right. rewrite (listActivities_ticket_accepted s userId e t He Ht Hc).
      rewrite hasBooking_find. cbn [result].
      destruct (booking_findByUserId s userId) as [b |].
      * right. split; [discriminate |]. split; [exists b |]; reflexivity.
      * left. split; [discriminate |]. split; [| reflexivity].
        intros (b & Hb). discriminate.
  - left. rewrite (listActivities_no_ticket s userId e He Ht). split; [trivial | reflexivity].
Qed.

(** X1: for a user with an enrollment, the activity guard has three
    outcomes, each decided by the ticket and the booking: Forbidden exactly
    when the ticket is absent, RESERVED or remote; NotFound exactly when the
    ticket is accepted and the user has no booking; success exactly when the
    ticket is accepted and a booking exists.  [getActivities] is refused
    with that Forbidden error in exactly the same case, and so is
    [createUserActivity]. *)
Theorem activity_guard_outcomes (s : Store) (userId : Z) (e : Enrollment.t) :
  enrollment_findWithAddressByUserId s userId = Some e ->
  (result (run (listActivities userId) s) = Err cannotListActivities
   <-> activityTicketRefused (ticket_findTicketByEnrollmentId s (Enrollment.id e)))
  /\ (result (run (listActivities userId) s) = Err notFoundError
      <-> ~ activityTicketRefused (ticket_findTicketByEnrollmentId s (Enrollment.id e))
          /\ ~ hasBooking s userId)
  /\ (result (run (listActivities userId) s) = Ok tt
      <-> ~ activityTicketRefused (ticket_findTicketByEnrollmentId s (Enrollment.id e))
          /\ hasBooking s userId)
  /\ (result (run (getActivities userId) s) = Err cannotListActivities
      <-> activityTicketRefused (ticket_findTicketByEnrollmentId s (Enrollment.id e)))
  /\ (activityTicketRefused (ticket_findTicketByEnrollmentId s (Enrollment.id e)) ->
      forall activityId,
        result (run (createUserActivity userId activityId) s) = Err cannotListActivities)
  /\ kind cannotListActivities = Forbidden.
Proof.
  intros He.
  assert (Hget : result (run (getActivities userId) s) = Err cannotListActivities
                 <-> result (run (listActivities userId) s) = Err cannotListActivities).
  { rewrite run_getActivities.
    destruct (result (run (listActivities userId) s)); cbn [result];
      split; intros H; (discriminate || (injection H as ->; reflexivity)). }
  assert (Hcreate : result (run (listActivities userId) s) = Err cannotListActivities ->
                    forall activityId,
                      result (run (createUserActivity userId activityId) s)
                      = Err cannotListActivities).
  { intros H activityId. rewrite run_createUserActivity, H. reflexivity. }
  rewrite Hget.
  destruct (listActivities_result s userId e He) as [[Hr Hg] | [(Hr & Hb & Hg) | (Hr & Hb & Hg)]];
    rewrite Hg in *;
    repeat split; try tauto; try discriminate; intros; try (apply Hcreate; reflexivity);
    try tauto.
Qed.

Lemma activity_guard_outcomes_witness :
  result (run (listActivities 3) Sample.fresh) = Err cannotListActivities
  /\ result (run (listActivities 5) Sample.fresh) = Err notFoundError
  /\ result (run (listActivities 1) Sample.fresh) = Ok tt.
Proof.
  destruct (activity_guard_outcomes Sample.fresh 3 Sample.enrollment3 eq_refl)
    as (H3 & _).
  destruct (activity_guard_outcomes Sample.fresh 5 Sample.enrollment5 eq_refl)
    as (_ & H5 & _).
  destruct (activity_guard_outcomes Sample.fresh 1 Sample.enrollment1 eq_refl)
    as (_ & _ & H1 & _).
  split; [| split].
  - apply H3. right. eexists. split; [reflexivity |]. left. reflexivity.
  - apply H5. split.
    + intros [H | (t & [= <-] & [H | H])]; discriminate.
    + intros (b & [<- | [<- | []]] & Hb); discriminate.
  - apply H1. split.
    + intros [H | (t & [= <-] & [H | H])]; discriminate.
    + eexists. split; [left; reflexivity | reflexivity].
Defined.

Lemma listHotels_ok_inv (s : Store) (userId : Z) :
  passesHotelGuard s userId ->
  exists e t,
    enrollment_findWithAddressByUserId s userId = Some e
    /\ ticket_findTicketByEnrollmentId s (Enrollment.id e) = Some t
    /\ TicketStatus_eqb (Ticket.status t) RESERVED = false
    /\ TicketType.isRemote (Ticket.TicketType t) = false
    /\ TicketType.includesHotel (Ticket.TicketType t) = true.
Proof.
  unfold passesHotelGuard.
  destruct (enrollment_findWithAddressByUserId s userId) as [e |] eqn:He.
  - destruct (ticket_findTicketByEnrollmentId s (Enrollment.id e)) as [t |] eqn:Ht.
    + rewrite (listHotels_ticket s userId e t He Ht). cbn [result].
      destruct (TicketStatus_eqb (Ticket.status t) RESERVED) eqn:Hs;
        destruct (TicketType.isRemote (Ticket.TicketType t)) eqn:Hr;
        destruct (TicketType.includesHotel (Ticket.TicketType t)) eqn:Hi;
        cbn [orb negb]; try discriminate.
      intros _. exists e, t. auto.
    + rewrite (listHotels_no_ticket s userId e He Ht). discriminate.
  - rewrite (listHotels_no_enrollment s userId He). discriminate.
Qed.

Lemma listActivities_ok_inv (s : Store) (userId : Z) :
  passesActivityGuard s userId ->
  exists e t b,
    enrollment_findWithAddressByUserId s userId = Some e
    /\ ticket_findTicketByEnrollmentId s (Enrollment.id e) = Some t
    /\ TicketStatus_eqb (Ticket.status t) RESERVED = false
    /\ TicketType.isRemote (Ticket.TicketType t) = false
    /\ booking_findByUserId s userId = Some b.
Proof.
  unfold passesActivityGuard.
  destruct (enrollment_findWithAddressByUserId s userId) as [e |] eqn:He.
  - destruct (ticket_findTicketByEnrollmentId s (Enrollment.id e)) as [t |] eqn:Ht.
    + destruct (TicketStatus_eqb (Ticket.status t) RESERVED
                || TicketType.isRemote (Ticket.TicketType t)) eqn:Hc.
      * rewrite (listActivities_ticket_refused s userId e t He Ht Hc). discriminate.
      * rewrite (listActivities_ticket_accepted s userId e t He Ht Hc). cbn [result].
        apply orb_false_iff in Hc. destruct Hc as [Hs Hr].
        destruct (booking_findByUserId s userId) as [b |]; [| discriminate].
        intros _. exists e, t, b. auto.
    + rewrite (listActivities_no_ticket s userId e He Ht). discriminate.
  - rewrite (listActivities_no_enrollment s userId He). discriminate.
Qed.

(** X2: once the hotel guard lets a user through, the activity guard never
    answers Forbidden for that user: it passes exactly when the user has a
    booking and fails with NotFound otherwise. *)
Theorem hotel_guard_then_activity_guard (s : Store) (userId : Z) :
  passesHotelGuard s userId ->
  (passesActivityGuard s userId <-> hasBooking s userId)
  /\ (~ hasBooking s userId ->
      result (run (listActivities userId) s) = Err notFoundError)
  /\ result (run (listActivities userId) s) <> Err cannotListActivities.
Proof.
  intros Hh. destruct (listHotels_ok_inv s userId Hh) as (e & t & He & Ht & Hs & Hr & _).
  assert (Hc : TicketStatus_eqb (Ticket.status t) RESERVED
               || TicketType.isRemote (Ticket.TicketType t) = false)
    by (rewrite Hs, Hr; reflexivity).
  unfold passesActivityGuard.
  rewrite (listActivities_ticket_accepted s userId e t He Ht Hc), hasBooking_find.
  cbn [result]. destruct (booking_findByUserId s userId) as [b |].
  - repeat split; try discriminate.
    + intros _. exists b. reflexivity.
    + intros H. destruct H. exists b. reflexivity.
  - repeat split; try discriminate.
    intros (b & Hb). discriminate.
Qed.

Lemma hotel_guard_then_activity_guard_witness :
  passesActivityGuard Sample.fresh 1
  /\ result (run (listActivities 5) Sample.fresh) = Err notFoundError.
Proof.
  destruct (hotel_guard_then_activity_guard Sample.fresh 1 eq_refl) as (H1 & _).
  destruct (hotel_guard_then_activity_guard Sample.fresh 5 eq_refl) as (_ & H5 & _).
  split.
  - apply H1. eexists. split; [left; reflexivity | reflexivity].
  - apply H5. intros (b & [<- | [<- | []]] & Hb); discriminate.
Defined.

(** X3: once the activity guard lets a user through, the hotel guard never
    answers NotFound for that user: the user's enrollment has a ticket, the
    hotel guard passes exactly when that ticket's type includes the hotel,
    and fails with Forbidden otherwise. *)
Theorem activity_guard_then_hotel_guard (s : Store) (userId : Z) :
  passesActivityGuard s userId ->
  exists e t,
    enrollment_findWithAddressByUserId s userId = Some e
    /\ ticket_findTicketByEnrollmentId s (Enrollment.id e) = Some t
    /\ (passesHotelGuard s userId
        <-> TicketType.includesHotel (Ticket.TicketType t) = true)
    /\ (TicketType.includesHotel (Ticket.TicketType t) = false ->
        result (run (listHotels userId) s) = Err cannotListHotelsError)
    /\ result (run (listHotels userId) s) <> Err notFoundError.
Proof.
  intros Ha.
  destruct (listActivities_ok_inv s userId Ha) as (e & t & b & He & Ht & Hs & Hr & _).
  exists e, t. split; [exact He |]. split; [exact Ht |].
  unfold passesHotelGuard.
  rewrite (listHotels_ticket s userId e t He Ht), Hs, Hr. cbn [result orb].
  destruct (TicketType.includesHotel (Ticket.TicketType t)); cbn [negb];
    repeat split; intros; reflexivity || discriminate.
Qed.

Lemma activity_guard_then_hotel_guard_witness :
  exists t,
    ticket_findTicketByEnrollmentId Sample.fresh 12 = Some t
    /\ result (run (listHotels 2) Sample.fresh) = Err cannotListHotelsError.
Proof.
  destruct (activity_guard_then_hotel_guard Sample.fresh 2 eq_refl)
    as (e & t & He & Ht & _ & Hf & _).
  injection He as <-. exists t. split; [exact Ht |].
  apply Hf. vm_compute in Ht. injection Ht as <-. reflexivity.
Defined.

(** The activity guard looks up the enrollment, its ticket and the booking,
    nothing else; the hotel guard likewise makes lookups only. *)
Lemma listActivities_lookups (s : Store) (userId : Z) :
  forallb isGuardLookup (trace (run (listActivities userId) s)) = true.
Proof.
  destruct (enrollment_findWithAddressByUserId s userId) as [e |] eqn:He.
  - destruct (ticket_findTicketByEnrollmentId s (Enrollment.id e)) as [t |] eqn:Ht.
    + destruct (TicketStatus_eqb (Ticket.status t) RESERVED
                || TicketType.isRemote (Ticket.TicketType t)) eqn:Hc.
      * rewrite (listActivities_ticket_refused s userId e t He Ht Hc). reflexivity.
      * rewrite (listActivities_ticket_accepted s userId e t He Ht Hc). reflexivity.
    + rewrite (listActivities_no_ticket s userId e He Ht). reflexivity.
  - rewrite (listActivities_no_enrollment s userId He). reflexivity.
Qed.

Lemma listHotels_lookups (s : Store) (userId : Z) :
  forallb isGuardLookup (trace (run (listHotels userId) s)) = true.
Proof.
  apply forallb_forall. intros q Hq.
  destruct (listHotels_trace s userId q Hq) as [-> | [x ->]]; reflexivity.
Qed.

(** The errors a guard can end with. *)
Lemma listHotels_errors (s : Store) (userId : Z) (err : ApplicationError) :
  result (run (listHotels userId) s) = Err err ->
  err = notFoundError \/ err = cannotListHotelsError.
Proof.
  destruct (enrollment_findWithAddressByUserId s userId) as [e |] eqn:He.
  - destruct (ticket_findTicketByEnrollmentId s (Enrollment.id e)) as [t |] eqn:Ht.
    + rewrite (listHotels_ticket s userId e t He Ht). cbn [result].
      destruct (_ || _ || _); intros [= <-]. right; reflexivity.
    + rewrite (listHotels_no_ticket s userId e He Ht). intros [= <-]. right; reflexivity.
  - rewrite (listHotels_no_enrollment s userId He). intros [= <-]. left; reflexivity.
Qed.

Lemma listActivities_errors (s : Store) (userId : Z) (err : ApplicationError) :
  result (run (listActivities userId) s) = Err err ->
  err = notFoundError \/ err = cannotListActivities.
Proof.
  destruct (enrollment_findWithAddressByUserId s userId) as [e |] eqn:He.
  - destruct (ticket_findTicketByEnrollmentId s (Enrollment.id e)) as [t |] eqn:Ht.
    + destruct (TicketStatus_eqb (Ticket.status t) RESERVED
                || TicketType.isRemote (Ticket.TicketType t)) eqn:Hc.
      * rewrite (listActivities_ticket_refused s userId e t He Ht Hc).
        intros [= <-]. right; reflexivity.
      * rewrite (listActivities_ticket_accepted s userId e t He Ht Hc). cbn [result].
        destruct (booking_findByUserId s userId); intros [= <-]. left; reflexivity.
    + rewrite (listActivities_no_ticket s userId e He Ht). intros [= <-]. right; reflexivity.
  - rewrite (listActivities_no_enrollment s userId He). intros [= <-]. left; reflexivity.
Qed.

(** X4: when the hotel guard fails, each of the three hotel operations
    fails with the guard's own error, leaves the store alone, and made no
    call beyond the guard's lookups: the hotel tables are never queried. *)
Theorem failed_hotel_guard_stops_operation (s : Store) (userId : Z) (err : ApplicationError) :
  result (run (listHotels userId) s) = Err err ->
  run (getHotels userId) s
    = mkOutcome (Err err) s (trace (run (listHotels userId) s))
  /\ (forall hotelId,
        run (getHotelsWithRooms userId hotelId) s
          = mkOutcome (Err err) s (trace (run (listHotels userId) s)))
  /\ run (getAllHotelsWithRooms userId) s
       = mkOutcome (Err err) s (trace (run (listHotels userId) s))
  /\ forallb isGuardLookup (trace (run (listHotels userId) s)) = true
  /\ (err = notFoundError \/ err = cannotListHotelsError).
Proof.
  intros Hg. repeat split; intros.
  - rewrite run_getHotels, Hg. reflexivity.
  - rewrite run_getHotelsWithRooms, Hg. reflexivity.
  - rewrite run_getAllHotelsWithRooms, Hg. reflexivity.
  - apply listHotels_lookups.
  - exact (listHotels_errors s userId err Hg).
Qed.

Lemma failed_hotel_guard_stops_operation_witness :
  run (getAllHotelsWithRooms 4) Sample.fresh
  = mkOutcome (Err cannotListHotelsError) Sample.fresh
      [QFindWithAddressByUserId 4; QFindTicketByEnrollmentId 14].
Proof.
  destruct (failed_hotel_guard_stops_operation
              Sample.fresh 4 cannotListHotelsError eq_refl) as (_ & _ & H & _).
  exact H.
Defined.

(** X5: when the activity guard fails, [getActivities] and
    [createUserActivity] fail with the guard's own error, leave the store
    alone, and made no call beyond the guard's lookups: the catalog is not
    read and no registration is attempted. *)
Theorem failed_activity_guard_stops_operation
  (s : Store) (userId : Z) (err : ApplicationError) :
  result (run (listActivities userId) s) = Err err ->
  run (getActivities userId) s
    = mkOutcome (Err err) s (trace (run (listActivities userId) s))
  /\ (forall activityId,
        run (createUserActivity userId activityId) s
          = mkOutcome (Err err) s (trace (run (listActivities userId) s)))
  /\ forallb isGuardLookup (trace (run (listActivities userId) s)) = true
  /\ (err = notFoundError \/ err = cannotListActivities).
Proof.
  intros Hg. repeat split; intros.
  - rewrite run_getActivities, Hg. reflexivity.
  - rewrite run_createUserActivity, Hg. reflexivity.
  - apply listActivities_lookups.
  - exact (listActivities_errors s userId err Hg).
Qed.

Lemma failed_activity_guard_stops_operation_witness :
  run (createUserActivity 3 10) Sample.fresh
  = mkOutcome (Err cannotListActivities) Sample.fresh
      [QFindWithAddressByUserId 3; QFindTicketByEnrollmentId 13].
Proof.
  destruct (failed_activity_guard_stops_operation
              Sample.fresh 3 cannotListActivities eq_refl) as (_ & H & _).
  exact (H 10).
Defined.

(** ** Further properties of the catalog operations *)

(** X6: [getActivities] never writes: whatever the guard decides, the store
    is left as it was, no registration call is made, and the same call on
    the store left behind has the same outcome. *)
Theorem getActivities_read_only (s : Store) (userId : Z) :
  store (run (getActivities userId) s) = s
  /\ run (getActivities userId) (store (run (getActivities userId) s))
     = run (getActivities userId) s
  /\ (forall userId' activityId,
        ~ In (QRegisterInActivity userId' activityId)
             (trace (run (getActivities userId) s))).
Proof.
  assert (H : store (run (getActivities userId) s) = s).
  { rewrite run_getActivities.
    destruct (result (run (listActivities userId) s)); reflexivity. }
  split; [exact H |]. split; [rewrite H; reflexivity |].
  intros userId' activityId Hin.
  pose proof (listActivities_lookups s userId) as Hl.
  rewrite forallb_forall in Hl.
  rewrite run_getActivities in Hin.
  destruct (result (run (listActivities userId) s)); cbn [trace] in Hin.
  - apply in_app_or in Hin. destruct Hin as [Hin | [Hin | [Hin | []]]];
      [apply Hl in Hin | |]; discriminate.
  - apply Hl in Hin. discriminate.
Qed.

Lemma forgetBooking_withBooking (s : Store) (r : Room.t) :
  forgetBooking (withBooking s r) = r.
Proof. destruct r; reflexivity. Qed.

Lemma forget_nested_rooms (s : Store) (rooms : list Room.t) :
  map forgetBooking (map (withBooking s) rooms) = rooms.
Proof.
  rewrite map_map. rewrite <- (map_id rooms) at 2.
  apply map_ext. intros r. apply forgetBooking_withBooking.
Qed.

Lemma forget_nested_hotels (s : Store) :
  map forgetRoomsAndBooking (hotel_findMany_Rooms_Booking s) = hotel s.
Proof.
  unfold hotel_findMany_Rooms_Booking. rewrite map_map.
  rewrite <- (map_id (hotel s)) at 2. apply map_ext. intros h. destruct h; reflexivity.
Qed.

(** X7: behind a passing hotel guard, [getAllHotelsWithRooms] returns the
    hotels of the store in the store's order, each with exactly the rooms of
    the store that belong to it, and each room with exactly the bookings of
    the store made for it. *)
Theorem getAllHotelsWithRooms_nesting (s : Store) (userId : Z) :
  passesHotelGuard s userId ->
  exists hotels,
    result (run (getAllHotelsWithRooms userId) s) = Ok hotels
    /\ map forgetRoomsAndBooking hotels = hotel s
    /\ (forall h, In h hotels ->
          (forall room0,
             In room0 (map forgetBooking (HotelWithRoomsAndBooking.Rooms h))
             <-> In room0 (room s)
                 /\ Room.hotelId room0 = HotelWithRoomsAndBooking.id h)
          /\ (forall r, In r (HotelWithRoomsAndBooking.Rooms h) ->
                forall b, In b (RoomWithBooking.Booking r)
                          <-> In b (booking s)
                              /\ Booking.roomId b = RoomWithBooking.id r)).
Proof.
  unfold passesHotelGuard. intros Hg.
  eexists. rewrite run_getAllHotelsWithRooms, Hg. cbn [result].
  split; [reflexivity |]. split; [apply forget_nested_hotels |].
  intros h Hh. unfold hotel_findMany_Rooms_Booking in Hh.
  apply in_map_iff in Hh. destruct Hh as (h0 & <- & _).
  cbn [HotelWithRoomsAndBooking.Rooms HotelWithRoomsAndBooking.id]. split.
  - intros room0. rewrite forget_nested_rooms. unfold roomsOf.
    rewrite filter_In, Z.eqb_eq. reflexivity.
  - intros r Hr b. apply in_map_iff in Hr. destruct Hr as (r0 & <- & _).
    cbn [withBooking RoomWithBooking.Booking RoomWithBooking.id]. unfold bookingsOf.
    rewrite filter_In, Z.eqb_eq. reflexivity.
Qed.

Lemma getAllHotelsWithRooms_nesting_witness :
  exists hotels,
    result (run (getAllHotelsWithRooms 1) Sample.fresh) = Ok hotels
    /\ map (fun h => map RoomWithBooking.id (HotelWithRoomsAndBooking.Rooms h)) hotels
       = [[101; 102]; [201]].
Proof.
  destruct (getAllHotelsWithRooms_nesting Sample.fresh 1 eq_refl)
    as (hotels & Hr & _).
  exists hotels. split; [exact Hr |].
  vm_compute in Hr. injection Hr as <-. reflexivity.
Defined.

(** X8: the three hotel listings agree.  When [getHotelsWithRooms] returns
    a hotel, [getHotels] and [getAllHotelsWithRooms] succeed as well, the
    nested listing without its rooms is the plain listing, the hotel is in
    the plain listing, and the nested listing has an entry for it whose
    rooms, bookings left aside, are the rooms returned. *)
Theorem hotel_listings_agree
  (s : Store) (userId hotelId : Z) (found : HotelWithRooms.t) :
  result (run (getHotelsWithRooms userId hotelId) s) = Ok found ->
  exists hotels nested,
    result (run (getHotels userId) s) = Ok hotels
    /\ result (run (getAllHotelsWithRooms userId) s) = Ok nested
    /\ map forgetRoomsAndBooking nested = hotels
    /\ In (forgetRooms found) hotels
    /\ exists entry,
         In entry nested
         /\ forgetRoomsAndBooking entry = forgetRooms found
         /\ map forgetBooking (HotelWithRoomsAndBooking.Rooms entry)
            = HotelWithRooms.Rooms found.
Proof.
  rewrite run_getHotelsWithRooms, run_getHotels, run_getAllHotelsWithRooms.
  destruct (result (run (listHotels userId) s)) as [[] | err]; [| discriminate].
  cbn [result]. unfold hotel_findFirst_Rooms.
  destruct (fitsInt hotelId); [| discriminate].
  destruct (find (fun h => Hotel.id h =? hotelId) (hotel s)) as [h |] eqn:Hf;
    [| discriminate].
  intros [= <-]. apply find_some in Hf. destruct Hf as [Hin _].
  exists (hotel_findMany s), (hotel_findMany_Rooms_Booking s).
  split; [reflexivity |]. split; [reflexivity |].
  split; [apply forget_nested_hotels |]. split.
  - unfold forgetRooms, hotel_findMany. cbn [HotelWithRooms.id HotelWithRooms.name].
    destruct h; exact Hin.
  - eexists. split.
    + unfold hotel_findMany_Rooms_Booking. apply in_map_iff.
      exists h. split; [reflexivity | exact Hin].
    + split; [reflexivity |].
      cbn [HotelWithRoomsAndBooking.Rooms HotelWithRooms.Rooms].
      apply forget_nested_rooms.
Qed.

Lemma hotel_listings_agree_witness :
  exists hotels nested,
    result (run (getHotels 1) Sample.fresh) = Ok hotels
    /\ result (run (getAllHotelsWithRooms 1) Sample.fresh) = Ok nested
    /\ map forgetRoomsAndBooking nested = hotels
    /\ In (Hotel.mk 2 "Resort") hotels.
Proof.
  destruct (hotel_listings_agree Sample.fresh 1 2
              (HotelWithRooms.mk 2 "Resort" [Room.mk 201 "201" 1 2]) eq_refl)
    as (hotels & nested & H1 & H2 & H3 & H4 & _).
  exists hotels, nested. auto.
Defined.

(** X9: the failures of [getHotelsWithRooms] that the guard's Forbidden
    does not cover.  It answers NotFound in two cases and no other: the user
    has no enrollment in the store, or the guard passes, the hotel id is
    within the range of the 32-bit integer key and no hotel of the store has
    it.  It lets the hotel query's own error through exactly when the guard
    passes and the hotel id is out of that range. *)
Theorem getHotelsWithRooms_NotFound_iff (s : Store) (userId hotelId : Z) :
  (result (run (getHotelsWithRooms userId hotelId) s) = Err notFoundError
   <-> (forall e, In e (enrollment s) -> Enrollment.userId e <> userId)
       \/ (passesHotelGuard s userId
           /\ -2147483648 <= hotelId <= 2147483647
           /\ forall h, In h (hotel s) -> Hotel.id h <> hotelId))
  /\ (result (run (getHotelsWithRooms userId hotelId) s) = Err prismaRangeError
      <-> passesHotelGuard s userId
          /\ ~ -2147483648 <= hotelId <= 2147483647).
Proof.
  unfold passesHotelGuard. rewrite run_getHotelsWithRooms.
  pose proof (fitsInt_range hotelId) as Hfit.
  destruct (enrollment_findWithAddressByUserId s userId) as [e |] eqn:He.
  - assert (Hen : ~ (forall e, In e (enrollment s) -> Enrollment.userId e <> userId)).
    { intros H. apply find_some in He. destruct He as [Hin Hid].
      apply Z.eqb_eq in Hid. exact (H e Hin Hid). }
    destruct (result (run (listHotels userId) s)) as [[] | err] eqn:Hg; cbn [result].
    + unfold hotel_findFirst_Rooms. destruct (fitsInt hotelId) eqn:Hb.
      * assert (Hr : -2147483648 <= hotelId <= 2147483647) by (apply Hfit; reflexivity).
        destruct (find (fun h => Hotel.id h =? hotelId) (hotel s)) as [h |] eqn:Hf.
        -- split; (split; [discriminate |]).
           ++ intros [H | (_ & _ & H)]; [contradiction |].
              apply find_some in Hf. destruct Hf as [Hin Hid]. apply Z.eqb_eq in Hid.
              destruct (H h Hin Hid).
           ++ intros [_ Hn]. contradiction.
        -- split; split.
           ++ intros _. right. split; [reflexivity |]. split; [exact Hr |].
              intros h Hin. apply Z.eqb_neq. exact (find_none _ _ Hf h Hin).
           ++ reflexivity.
           ++ discriminate.
           ++ intros [_ Hn]. contradiction.
      * assert (Hr : ~ -2147483648 <= hotelId <= 2147483647).
        { intros Hr. apply Hfit in Hr. discriminate. }
        split; split.
        -- discriminate.
        -- intros [H | (_ & H & _)]; contradiction.
        -- intros _. split; [reflexivity | exact Hr].
        -- reflexivity.
    + assert (Herr : err = cannotListHotelsError).
      { revert Hg.
        destruct (ticket_findTicketByEnrollmentId s (Enrollment.id e)) as [t |] eqn:Ht.
        - rewrite (listHotels_ticket s userId e t He Ht). cbn [result].
          destruct (_ || _ || _); intros [= <-]. reflexivity.
        - rewrite (listHotels_no_ticket s userId e He Ht). intros [= <-]. reflexivity. }
      subst err. split; split.
      * discriminate.
      * intros [H | [H _]]; [contradiction | discriminate].
      * discriminate.
      * intros [H _]. discriminate.
  - rewrite (listHotels_no_enrollment s userId He). cbn [result].
    split; split.
    + intros _. left. intros e Hin. apply Z.eqb_neq. exact (find_none _ _ He e Hin).
    + reflexivity.
    + discriminate.
    + intros [H _]. discriminate.
Qed.

(** ** Further properties of the subscription flags and of registration *)

(** The loop of the callback is a membership test on activity ids. *)
Lemma callback_existsb (activity : Activities.t) (rows : list UserActivities.t) :
  activitiesWithUser_callback activity rows
  = ActivityWithUser.spread activity
      (existsb (fun r => Activities.id activity =? UserActivities.activityId r) rows).
Proof.
  induction rows as [| r rows IH]; simpl; [reflexivity |].
  destruct (Activities.id activity =? UserActivities.activityId r);
    [reflexivity | exact IH].
Qed.

Lemma callback_flag_ext
  (activity : Activities.t) (rows rows' : list UserActivities.t) :
  ((exists r, In r rows /\ UserActivities.activityId r = Activities.id activity)
   <-> (exists r, In r rows' /\ UserActivities.activityId r = Activities.id activity)) ->
  activitiesWithUser_callback activity rows = activitiesWithUser_callback activity rows'.
Proof.
  intros H. rewrite <- !callback_userSubscribed in H.
  rewrite !callback_existsb in *. cbn [ActivityWithUser.spread ActivityWithUser.userSubscribed] in H.
  f_equal. apply eq_true_iff_eq. exact H.
Qed.

(** X10: the list [getActivities] returns depends on the registrations only
    through which catalog activities the user is registered for: replacing
    the registrations of the store by others that name the same activities
    for this user (in another order, repeated, with other ids or dates, or
    with other users' rows changed) leaves the result as it was. *)
Theorem getActivities_depends_on_subscriptions
  (s : Store) (rows : list UserActivities.t) (userId : Z) :
  (forall a, In a (activities s) ->
     (subscribedTo s userId (Activities.id a)
      <-> subscribedTo (setUserActivities s rows) userId (Activities.id a))) ->
  result (run (getActivities userId) (setUserActivities s rows))
  = result (run (getActivities userId) s).
Proof.
  intros H. rewrite !run_getActivities, listActivities_setUserActivities.
  destruct (result (run (listActivities userId) s)); [| reflexivity].
  cbn [result]. f_equal.
  change (activities_findAllActivities (setUserActivities s rows))
    with (activities_findAllActivities s).
  apply map_ext_in. intros activity Hin. apply callback_flag_ext.
  rewrite !findUserActivities_subscribed. symmetry. exact (H activity Hin).
Qed.

Lemma getActivities_depends_on_subscriptions_witness :
  result (run (getActivities 2)
            (setUserActivities Sample.registered
               [UserActivities.mk 7 2 10 1 1; UserActivities.mk 8 2 30 1 1;
                UserActivities.mk 9 2 10 1 1]))
  = result (run (getActivities 2) Sample.registered).
Proof.
  apply (getActivities_depends_on_subscriptions Sample.registered).
  intros a [<- | [<- | [<- | []]]]; unfold subscribedTo; simpl; split.
  - intros _. eexists. split; [left; reflexivity | split; reflexivity].
  - intros _. eexists. split; [right; right; left; reflexivity | split; reflexivity].
  - intros (r & [<- | [<- | [<- | []]]] & Hu & Ha); discriminate.
  - intros (r & [<- | [<- | [<- | []]]] & Hu & Ha); discriminate.
  - intros _. eexists. split; [right; left; reflexivity | split; reflexivity].
  - intros _. eexists. split; [right; left; reflexivity | split; reflexivity].
Defined.

(** X11: a user without a booking gets nothing from the activities service,
    whatever the enrollment and the ticket are: [getActivities] and
    [createUserActivity] both fail with NotFound or Forbidden, the store is
    left as it was and no registration call is made. *)
Theorem activities_need_a_booking (s : Store) (userId : Z) :
  ~ hasBooking s userId ->
  exists err,
    (err = notFoundError \/ err = cannotListActivities)
    /\ result (run (getActivities userId) s) = Err err
    /\ (forall activityId,
          result (run (createUserActivity userId activityId) s) = Err err
          /\ store (run (createUserActivity userId activityId) s) = s
          /\ ~ In (QRegisterInActivity userId activityId)
                  (trace (run (createUserActivity userId activityId) s))).
Proof.
  intros Hb.
  destruct (result (run (listActivities userId) s)) as [[] | err] eqn:Hg.
  - exfalso. apply Hb. apply hasBooking_find.
    destruct (listActivities_ok_inv s userId Hg) as (e & t & b & _ & _ & _ & _ & Hf).
    exists b. exact Hf.
  - exists err. split; [exact (listActivities_errors s userId err Hg) |].
    split; [rewrite run_getActivities, Hg; reflexivity |].
    intros activityId. rewrite run_createUserActivity, Hg. cbn [result store trace].
    split; [reflexivity |]. split; [reflexivity |].
    intros Hin. pose proof (listActivities_lookups s userId) as Hl.
    rewrite forallb_forall in Hl. apply Hl in Hin. discriminate.
Qed.

Lemma activities_need_a_booking_witness :
  exists err,
    result (run (getActivities 5) Sample.registered) = Err err
    /\ result (run (createUserActivity 5 10) Sample.registered) = Err err.
Proof.
  assert (Hb : ~ hasBooking Sample.registered 5).
  { intros (b & [<- | [<- | []]] & H); discriminate. }
  destruct (activities_need_a_booking Sample.registered 5 Hb) as (err & _ & Hg & Hc).
  exists err. split; [exact Hg | exact (proj1 (Hc 10))].
Defined.

Lemma userRegistered_false_filter (s : Store) (userId : Z) :
  userRegistered s userId = false ->
  activities_findUserActivities s userId = [].
Proof.
  unfold userRegistered, activities_findUserActivities.
  induction (userActivities s) as [| r rows IH]; simpl; [reflexivity |].
  destruct (UserActivities.userId r =? userId); simpl; [discriminate | exact IH].
Qed.

Lemma createUserActivity_ok_inv
  (s : Store) (userId activityId : Z) (r : UserActivities.t) :
  result (run (createUserActivity userId activityId) s) = Ok r ->
  passesActivityGuard s userId
  /\ activityExists s activityId = true
  /\ userRegistered s userId = false
  /\ UserActivities.userId r = userId
  /\ UserActivities.activityId r = activityId
  /\ store (run (createUserActivity userId activityId) s)
     = setUserActivities s (userActivities s ++ [r]).
Proof.
  unfold passesActivityGuard. rewrite run_createUserActivity.
  destruct (result (run (listActivities userId) s)) as [[] | err]; [| discriminate].
  cbn [result store]. intros Hok.
  destruct (registerInActivity_ok_inv s userId activityId r Hok) as (He & Hr & Hins).
  rewrite Hins in *. unfold insertUserActivity in *. cbn [fst snd] in *.
  injection Hok as <-. repeat split; assumption || reflexivity.
Qed.

(** X12: registering and then listing.  When [createUserActivity] succeeds,
    [getActivities] for the same user on the resulting store succeeds too,
    lists the whole catalog, and flags as subscribed exactly the elements
    with the registered activity id, of which there is at least one.  (The
    insert itself is the one the spec describes; the guard, the lookup loop
    and the copy of the activities are the service's.) *)
Theorem registered_activity_is_listed
  (s : Store) (userId activityId : Z) (r : UserActivities.t) :
  result (run (createUserActivity userId activityId) s) = Ok r ->
  exists out,
    result (run (getActivities userId)
              (store (run (createUserActivity userId activityId) s))) = Ok out
    /\ map ActivityWithUser.activity out = activities s
    /\ (forall o, In o out ->
          (ActivityWithUser.userSubscribed o = true
           <-> ActivityWithUser.id o = activityId))
    /\ (exists o, In o out /\ ActivityWithUser.id o = activityId).
Proof.
  intros Hok.
  destruct (createUserActivity_ok_inv s userId activityId r Hok)
    as (Hg & Hex & Hnew & Hu & Ha & Hs).
  rewrite Hs. set (s1 := setUserActivities s (userActivities s ++ [r])).
  assert (Hrows : activities_findUserActivities s1 userId = [r]).
  { unfold activities_findUserActivities, s1. cbn [userActivities setUserActivities].
    rewrite filter_app.
    change (filter (fun r0 => UserActivities.userId r0 =? userId) (userActivities s))
      with (activities_findUserActivities s userId).
    rewrite (userRegistered_false_filter s userId Hnew). simpl.
    rewrite Hu, Z.eqb_refl. reflexivity. }
  eexists. rewrite run_getActivities.
  unfold s1 at 1. rewrite listActivities_setUserActivities, Hg. cbn [result].
  rewrite Hrows.
  change (activities_findAllActivities s1) with (activities s).
  split; [reflexivity |]. split; [| split].
  - rewrite map_map. rewrite <- (map_id (activities s)) at 2.
    apply map_ext. intros a. apply callback_activity.
  - intros o Ho. apply in_map_iff in Ho. destruct Ho as (a & <- & _).
    rewrite callback_existsb. cbn. rewrite Ha, orb_false_r. apply Z.eqb_eq.
  - unfold activityExists in Hex. apply existsb_exists in Hex.
    destruct Hex as (a & Hin & Hid). apply Z.eqb_eq in Hid.
    exists (activitiesWithUser_callback a [r]). split.
    + apply in_map_iff. exists a. split; [reflexivity | exact Hin].
    + rewrite callback_existsb. exact Hid.
Qed.

Lemma registered_activity_is_listed_witness :
  exists out,
    result (run (getActivities 1)
              (store (run (createUserActivity 1 30) Sample.fresh))) = Ok out
    /\ map ActivityWithUser.userSubscribed out = [false; false; true].
Proof.
  destruct (registered_activity_is_listed Sample.fresh 1 30
              (UserActivities.mk 1 1 30 5000 5000) eq_refl)
    as (out & Hout & _).
  exists out. split; [exact Hout |].
  vm_compute in Hout. injection Hout as <-. reflexivity.
Defined.

(** ** Store calls *)

Lemma listHotels_trace_shape (s : Store) (userId : Z) :
  exists rest,
    trace (run (listHotels userId) s) = QFindWithAddressByUserId userId :: rest
    /\ (List.length rest <= 1)%nat.
Proof.
  destruct (enrollment_findWithAddressByUserId s userId) as [e |] eqn:He.
  - destruct (ticket_findTicketByEnrollmentId s (Enrollment.id e)) as [t |] eqn:Ht.
    + rewrite (listHotels_ticket s userId e t He Ht). eexists. split; [reflexivity |].
      simpl; lia.
    + rewrite (listHotels_no_ticket s userId e He Ht). eexists. split; [reflexivity |].
      simpl; lia.
  - rewrite (listHotels_no_enrollment s userId He). eexists. split; [reflexivity |].
    simpl; lia.
Qed.

Lemma listActivities_trace_shape (s : Store) (userId : Z) :
  exists rest,
    trace (run (listActivities userId) s) = QFindWithAddressByUserId userId :: rest
    /\ (List.length rest <= 2)%nat.
Proof.
  destruct (enrollment_findWithAddressByUserId s userId) as [e |] eqn:He.
  - destruct (ticket_findTicketByEnrollmentId s (Enrollment.id e)) as [t |] eqn:Ht.
    + destruct (TicketStatus_eqb (Ticket.status t) RESERVED
                || TicketType.isRemote (Ticket.TicketType t)) eqn:Hc.
      * rewrite (listActivities_ticket_refused s userId e t He Ht Hc).
        eexists. split; [reflexivity |]. simpl; lia.
      * rewrite (listActivities_ticket_accepted s userId e t He Ht Hc).
        eexists. split; [reflexivity |]. simpl; lia.
    + rewrite (listActivities_no_ticket s userId e He Ht).
      eexists. split; [reflexivity |]. simpl; lia.
  - rewrite (listActivities_no_enrollment s userId He).
    eexists. split; [reflexivity |]. simpl; lia.
Qed.

(** X13: every operation starts with the enrollment lookup for the given
    user and makes a bounded number of store calls: at most three for each
    hotel operation, five for [getActivities] and four for
    [createUserActivity]. *)
Theorem store_calls_bounded (s : Store) (userId hotelId activityId : Z) :
  (hd_error (trace (run (getHotels userId) s)) = Some (QFindWithAddressByUserId userId)
   /\ (List.length (trace (run (getHotels userId) s)) <= 3)%nat)
  /\ (hd_error (trace (run (getHotelsWithRooms userId hotelId) s))
      = Some (QFindWithAddressByUserId userId)
      /\ (List.length (trace (run (getHotelsWithRooms userId hotelId) s)) <= 3)%nat)
  /\ (hd_error (trace (run (getAllHotelsWithRooms userId) s))
      = Some (QFindWithAddressByUserId userId)
      /\ (List.length (trace (run (getAllHotelsWithRooms userId) s)) <= 3)%nat)
  /\ (hd_error (trace (run (getActivities userId) s))
      = Some (QFindWithAddressByUserId userId)
      /\ (List.length (trace (run (getActivities userId) s)) <= 5)%nat)
  /\ (hd_error (trace (run (createUserActivity userId activityId) s))
      = Some (QFindWithAddressByUserId userId)
      /\ (List.length (trace (run (createUserActivity userId activityId) s)) <= 4)%nat).
Proof.
  destruct (listHotels_trace_shape s userId) as (resth & Hh & Hlh).
  destruct (listActivities_trace_shape s userId) as (resta & Ha & Hla).
  rewrite run_getHotels, run_getHotelsWithRooms, run_getAllHotelsWithRooms,
    run_getActivities, run_createUserActivity.
  destruct (result (run (listHotels userId) s));
    destruct (result (run (listActivities userId) s));
    cbn [trace]; rewrite Hh, Ha; cbn [hd_error app];
    repeat split; cbn [List.length]; rewrite ?List.length_app; cbn [List.length]; lia.
Qed.
